(** * Coffee Shop backend: the drinks API (src/starter_code/backend/src/api.py)

    A shallow embedding of the Flask request handlers of the coffee shop
    service, of the JSON values they exchange, and of the pieces of the
    framework they rely on (json.dumps / json.loads, abort, the registered
    error handlers), followed by the properties of the specification.

    Conventions.
    - A Python [str] is a [string] whose characters are read as the code
      points U+0000..U+00FF.
    - A JSON number is an integer ([Z]); texts with a fraction or an exponent
      are rejected by [json_loads] (floating point is outside the embedding).
    - A Python [dict] is an association list in insertion order; [None] is
      [JNull].
    - A view runs in the monad [Py]: it reads and writes the table of drinks
      and returns a value or raises an exception.
    - The modules database/models.py and auth/auth.py are not part of the
      sources at hand; what the views call from them is modelled from the
      specification, and the token verifier itself is a parameter. *)

From Stdlib Require Import ZArith Ascii String List Lia Bool.
From Stdlib Require Import DecimalString DecimalFacts DecimalPos DecimalZ.
From stdpp Require Import base gmap strings list.

Set Warnings "-register-all".
Local Open Scope Z_scope.

(** ** JSON values *)

Inductive json : Type :=
| JNull
| JBool (b : bool)
| JNum (n : Z)
| JStr (s : string)
| JArr (l : list json)
| JObj (kvs : list (string * json)).

(** Induction over the nesting of arrays and objects. *)
Section JsonInd.
Variable P : json -> Prop.
Hypothesis HNull : P JNull.
Hypothesis HBool : forall b, P (JBool b).
Hypothesis HNum : forall n, P (JNum n).
Hypothesis HStr : forall s, P (JStr s).
Hypothesis HArr : forall l, Forall P l -> P (JArr l).
Hypothesis HObj : forall kvs, Forall (fun kv => P (snd kv)) kvs -> P (JObj kvs).

Fixpoint json_nested_ind (v : json) : P v :=
  match v with
  | JNull => HNull
  | JBool b => HBool b
  | JNum n => HNum n
  | JStr s => HStr s
  | JArr l =>
      HArr l ((fix all (l : list json) : Forall P l :=
                 match l with
                 | [] => @List.Forall_nil _ P
                 | x :: l' => @List.Forall_cons _ P x l' (json_nested_ind x) (all l')
                 end) l)
  | JObj kvs =>
      HObj kvs ((fix all (kvs : list (string * json)) :
                     Forall (fun kv => P (snd kv)) kvs :=
                   match kvs with
                   | [] => @List.Forall_nil _ _
                   | kv :: kvs' =>
                       @List.Forall_cons _ (fun kv => P (snd kv)) kv kvs'
                         (json_nested_ind (snd kv)) (all kvs')
                   end) kvs)
  end.
End JsonInd.

(** A JSON value is a Python value when no dict holds a key twice. *)
Fixpoint wf_json (v : json) : bool :=
  match v with
  | JArr l => forallb wf_json l
  | JObj kvs =>
      bool_decide (NoDup (map fst kvs)) &&
      forallb (fun kv => match kv with (_, x) => wf_json x end) kvs
  | _ => true
  end.

Module Text.

Definition dquote : ascii := "034"%char.
Definition bslash : ascii := "092"%char.

(** [sep.join(parts)] *)
Fixpoint join (sep : string) (parts : list string) : string :=
  match parts with
  | [] => EmptyString
  | [p] => p
  | p :: ps => p +:+ sep +:+ join sep ps
  end.

(** [s[0:1] == c] and [s[1:]] *)
Definition starts_with (c : ascii) (s : string) : bool :=
  match s with
  | String c' _ => (c' =? c)%char
  | EmptyString => false
  end.

Definition tail (s : string) : string :=
  match s with
  | String _ r => r
  | EmptyString => EmptyString
  end.

(** [needle in hay] on two strings: substring test. *)
Fixpoint contains (needle hay : string) : bool :=
  String.prefix needle hay ||
  match hay with
  | EmptyString => false
  | String _ hay' => contains needle hay'
  end.

End Text.

(** ** json.dumps *)

Module Dumps.
Import Text.

Definition hex_digit (n : N) : ascii :=
  if (n <? 10)%N then ascii_of_N (48 + n) else ascii_of_N (87 + n).

(** [ESCAPE_ASCII] of the encoder: quote, backslash and everything outside
    the range space..tilde are escaped. *)
Definition escape_char (c : ascii) : string :=
  if (c =? dquote)%char then String bslash (String dquote EmptyString)
  else if (c =? bslash)%char then String bslash (String bslash EmptyString)
  else if (c =? "010")%char then String bslash "n"
  else if (c =? "013")%char then String bslash "r"
  else if (c =? "009")%char then String bslash "t"
  else if (c =? "008")%char then String bslash "b"
  else if (c =? "012")%char then String bslash "f"
  else
    let n := N_of_ascii c in
    if ((32 <=? n) && (n <=? 126))%N then String c EmptyString
    else String bslash
           (String "u" (String "0" (String "0"
             (String (hex_digit (n / 16)) (String (hex_digit (n mod 16)) EmptyString))))).

Fixpoint escape (s : string) : string :=
  match s with
  | EmptyString => EmptyString
  | String c r => escape_char c +:+ escape r
  end.

Definition quote (s : string) : string :=
  String dquote (escape s +:+ String dquote EmptyString).

(** [str(n)] for an int. *)
Definition str_of_Z (n : Z) : string := NilZero.string_of_int (Z.to_int n).

Fixpoint json_dumps (v : json) : string :=
  match v with
  | JNull => "null"
  | JBool true => "true"
  | JBool false => "false"
  | JNum n => str_of_Z n
  | JStr s => quote s
  | JArr l => "[" +:+ join ", " (map json_dumps l) +:+ "]"
  | JObj kvs =>
      "{" +:+
      join ", "
        (map (fun kv => match kv with
                        | (k, x) => quote k +:+ ": " +:+ json_dumps x
                        end) kvs)
      +:+ "}"
  end.

End Dumps.

(** ** json.loads *)

Module Loads.
Import Text.

Definition is_ws (c : ascii) : bool :=
  (c =? " ")%char || (c =? "009")%char || (c =? "010")%char || (c =? "013")%char.

Fixpoint skip_ws (s : string) : string :=
  match s with
  | String c r => if is_ws c then skip_ws r else s
  | EmptyString => s
  end.

Definition hex_val (c : ascii) : option N :=
  let n := N_of_ascii c in
  if ((48 <=? n) && (n <=? 57))%N then Some (n - 48)%N
  else if ((97 <=? n) && (n <=? 102))%N then Some (n - 87)%N
  else if ((65 <=? n) && (n <=? 70))%N then Some (n - 55)%N
  else None.

(** The character of a [\uXXXX] escape; escapes above U+00FF are outside the
    embedding and rejected. *)
Definition hex4 (a b c d : ascii) : option ascii :=
  match hex_val a, hex_val b, hex_val c, hex_val d with
  | Some x, Some y, Some z, Some w =>
      let n := (((x * 16 + y) * 16 + z) * 16 + w)%N in
      if (n <? 256)%N then Some (ascii_of_N n) else None
  | _, _, _, _ => None
  end.

(** The one-character escapes of [BACKSLASH]. *)
Definition unescape (e : ascii) : option ascii :=
  if (e =? dquote)%char then Some dquote
  else if (e =? bslash)%char then Some bslash
  else if (e =? "/")%char then Some "/"%char
  else if (e =? "b")%char then Some "008"%char
  else if (e =? "f")%char then Some "012"%char
  else if (e =? "n")%char then Some "010"%char
  else if (e =? "r")%char then Some "013"%char
  else if (e =? "t")%char then Some "009"%char
  else None.

Definition push (c : ascii) (r : option (string * string)) : option (string * string) :=
  match r with
  | Some (s, rest) => Some (String c s, rest)
  | None => None
  end.

(** [py_scanstring] in strict mode, started after the opening quote. *)
Fixpoint scan_string (s : string) : option (string * string) :=
  match s with
  | EmptyString => None
  | String c r =>
      if (c =? dquote)%char then Some (EmptyString, r)
      else if (c =? bslash)%char then
        match r with
        | EmptyString => None
        | String e r1 =>
            match unescape e with
            | Some c' => push c' (scan_string r1)
            | None =>
                if (e =? "u")%char then
                  match r1 with
                  | String h1 (String h2 (String h3 (String h4 r2))) =>
                      match hex4 h1 h2 h3 h4 with
                      | Some c' => push c' (scan_string r2)
                      | None => None
                      end
                  | _ => None
                  end
                else None
            end
        end
      else if (N_of_ascii c <? 32)%N then None
      else push c (scan_string r)
  end.

Definition digit (c : ascii) : option (Decimal.uint -> Decimal.uint) :=
  match c with
  | "0"%char => Some Decimal.D0 | "1"%char => Some Decimal.D1
  | "2"%char => Some Decimal.D2 | "3"%char => Some Decimal.D3
  | "4"%char => Some Decimal.D4 | "5"%char => Some Decimal.D5
  | "6"%char => Some Decimal.D6 | "7"%char => Some Decimal.D7
  | "8"%char => Some Decimal.D8 | "9"%char => Some Decimal.D9
  | _ => None
  end.

Definition is_digit (c : ascii) : bool :=
  match digit c with Some _ => true | None => false end.

(** The longest run of decimal digits at the head of [s]. *)
Fixpoint scan_uint (s : string) : Decimal.uint * string :=
  match s with
  | EmptyString => (Decimal.Nil, s)
  | String c r =>
      match digit c with
      | Some d => let '(u, rest) := scan_uint r in (d u, rest)
      | None => (Decimal.Nil, s)
      end
  end.

(** The integer part of [NUMBER_RE]: an optional minus sign, then either a
    single zero or a run of digits that does not start with zero. *)
Definition scan_nat (s : string) : option (Z * string) :=
  match s with
  | String c r =>
      if (c =? "0")%char then Some (0, r)
      else match scan_uint s with
           | (Decimal.Nil, _) => None
           | (u, rest) => Some (Z.of_uint u, rest)
           end
  | EmptyString => None
  end.

Definition scan_int (s : string) : option (Z * string) :=
  match s with
  | String c r =>
      if (c =? "-")%char then
        match scan_nat r with
        | Some (n, rest) => Some (- n, rest)
        | None => None
        end
      else scan_nat s
  | EmptyString => None
  end.

(** [d[k] = v] on a dict. *)
Fixpoint dict_set (k : string) (v : json) (d : list (string * json)) :
    list (string * json) :=
  match d with
  | [] => [(k, v)]
  | (k', v') :: t =>
      if String.eqb k k' then (k, v) :: t else (k', v') :: dict_set k v t
  end.

Section Containers.
Variable pv : string -> option (json * string).

(** The loop of [JSONArray], entered at the first element. *)
Fixpoint parse_elems (g : nat) (s : string) (acc : list json) :
    option (list json * string) :=
  match g with
  | O => None
  | S g' =>
      match pv s with
      | Some (v, s1) =>
          match skip_ws s1 with
          | String c s2 =>
              if (c =? ",")%char then parse_elems g' (skip_ws s2) (v :: acc)
              else if (c =? "]")%char then Some (rev (v :: acc), s2)
              else None
          | EmptyString => None
          end
      | None => None
      end
  end.

(** The loop of [JSONObject], entered at the quote of the first key. *)
Fixpoint parse_members (g : nat) (s : string) (acc : list (string * json)) :
    option (list (string * json) * string) :=
  match g with
  | O => None
  | S g' =>
      match s with
      | String q s0 =>
          if (q =? dquote)%char then
            match scan_string s0 with
            | Some (k, s1) =>
                match skip_ws s1 with
                | String c s2 =>
                    if (c =? ":")%char then
                      match pv (skip_ws s2) with
                      | Some (v, s3) =>
                          match skip_ws s3 with
                          | String c' s4 =>
                              if (c' =? ",")%char then
                                parse_members g' (skip_ws s4) (dict_set k v acc)
                              else if (c' =? "}")%char then
                                Some (dict_set k v acc, s4)
                              else None
                          | EmptyString => None
                          end
                      | None => None
                      end
                    else None
                | EmptyString => None
                end
            | None => None
            end
          else None
      | EmptyString => None
      end
  end.
End Containers.

(** [scan_once]: one JSON value at the head of [s]. *)
Fixpoint parse_value (fuel : nat) (s : string) : option (json * string) :=
  match fuel with
  | O => None
  | S f =>
      match s with
      | EmptyString => None
      | String c r =>
          if (c =? dquote)%char then
            match scan_string r with
            | Some (x, rest) => Some (JStr x, rest)
            | None => None
            end
          else if (c =? "{")%char then
            let s1 := skip_ws r in
            if starts_with "}" s1 then Some (JObj [], tail s1)
            else match parse_members (parse_value f) f s1 [] with
                 | Some (kvs, rest) => Some (JObj kvs, rest)
                 | None => None
                 end
          else if (c =? "[")%char then
            let s1 := skip_ws r in
            if starts_with "]" s1 then Some (JArr [], tail s1)
            else match parse_elems (parse_value f) f s1 [] with
                 | Some (l, rest) => Some (JArr l, rest)
                 | None => None
                 end
          else if (c =? "n")%char then
            match r with
            | String "u" (String "l" (String "l" rest)) => Some (JNull, rest)
            | _ => None
            end
          else if (c =? "t")%char then
            match r with
            | String "r" (String "u" (String "e" rest)) => Some (JBool true, rest)
            | _ => None
            end
          else if (c =? "f")%char then
            match r with
            | String "a" (String "l" (String "s" (String "e" rest))) =>
                Some (JBool false, rest)
            | _ => None
            end
          else
            match scan_int s with
            | Some (n, rest) => Some (JNum n, rest)
            | None => None
            end
      end
  end.

(** [json.loads(s)]. [None] is returned for a text that is not JSON
    ([JSONDecodeError]) and also for a JSON text outside the embedding: a
    number with a fraction or an exponent, NaN or Infinity, an escape above
    U+00FF. A result [Some v] is the value Python reads. *)
Definition json_loads (s : string) : option json :=
  match parse_value (S (String.length s)) (skip_ws s) with
  | Some (v, rest) =>
      match skip_ws rest with
      | EmptyString => Some v
      | String _ _ => None
      end
  | None => None
  end.

End Loads.

Export Dumps Loads.

(** ** Python values at run time *)

(** [AuthError(error, status_code)], imported from [.auth.auth]. *)
Record AuthError : Type := { error : json; status_code : Z }.

Inductive exn : Type :=
| KeyError (key : string)
| TypeError
| JSONDecodeError
| StorageError                       (* raised by the storage layer on commit *)
| HTTPException (code : Z)           (* raised by [abort(code)] *)
| AuthFailure (e : AuthError).       (* [raise AuthError(...)] *)

Inductive result (A : Type) : Type :=
| Ok (a : A)
| Raise (e : exn).
Arguments Ok {A} a.
Arguments Raise {A} e.

Global Instance result_ret : MRet result := fun A a => Ok a.
Global Instance result_bind : MBind result :=
  fun A B f m => match m with Ok a => f a | Raise e => Raise e end.

(** [d.get(key)] on the association list of a dict. *)
Fixpoint dict_get (key : string) (d : list (string * json)) : option json :=
  match d with
  | [] => None
  | (k, v) :: t => if String.eqb key k then Some v else dict_get key t
  end.

(** [obj[key]] for a string key. *)
Definition py_getitem (obj : json) (key : string) : result json :=
  match obj with
  | JObj d =>
      match dict_get key d with
      | Some v => Ok v
      | None => Raise (KeyError key)
      end
  | _ => Raise TypeError
  end.

Definition is_str (key : string) (x : json) : bool :=
  match x with
  | JStr s => String.eqb s key
  | _ => false
  end.

(** [key in obj] for a string key: membership among the keys of a dict, among
    the items of a list, substring test on a string, [TypeError] otherwise. *)
Definition py_in (key : string) (obj : json) : result bool :=
  match obj with
  | JObj d => Ok (match dict_get key d with Some _ => true | None => false end)
  | JArr l => Ok (existsb (is_str key) l)
  | JStr s => Ok (Text.contains key s)
  | _ => Raise TypeError
  end.

(** ** The database *)

(** A row of the drinks table: title and recipe columns, keyed by id. The
    flag [commit_fails] stands for the storage layer refusing the next commit
    (constraint violation, connectivity). *)
Record Db : Type := {
  rows : gmap Z (json * string);
  commit_fails : bool
}.

Definition Py (A : Type) : Type := Db -> result A * Db.

Global Instance Py_ret : MRet Py := fun A a db => (Ok a, db).
Global Instance Py_bind : MBind Py :=
  fun A B f m db =>
    match m db with
    | (Ok a, db') => f a db'
    | (Raise e, db') => (Raise e, db')
    end.

Definition lift {A} (r : result A) : Py A := fun db => (r, db).
Definition raise {A} (e : exn) : Py A := fun db => (Raise e, db).

(** [try: m / except: h] with a bare [except], which catches everything. *)
Definition try_except {A} (m h : Py A) : Py A :=
  fun db =>
    match m db with
    | (Ok a, db') => (Ok a, db')
    | (Raise _, db') => h db'
    end.

(** flask's [abort(code)] *)
Definition abort {A} (code : Z) : Py A := raise (HTTPException code).

(** ** The Drink model *)

Module Drink.

(** The mapped object: [id] is [None] until the row is inserted. *)
Record t : Type := { id : option Z; title : json; recipe : string }.

Definition of_row (k : Z) (row : json * string) : t :=
  {| id := Some k; title := fst row; recipe := snd row |}.

Definition to_row (d : t) : json * string := (title d, recipe d).

Definition id_json (d : t) : json :=
  match id d with
  | Some k => JNum k
  | None => JNull
  end.

(** Modelled from the spec: [Drink.long] of database/models.py is missing;
    it is the projection with id, title and the recipe with full entry
    detail, the stored recipe being read back as structured data. *)
Definition long (d : t) : result json :=
  match json_loads (recipe d) with
  | Some r => Ok (JObj [("id", id_json d); ("title", title d); ("recipe", r)])
  | None => Raise JSONDecodeError
  end.

Definition short_entry (r : json) : result json :=
  c ← py_getitem r "color"; Ok (JObj [("color", c)]).

(** Modelled from the spec: [Drink.short] of database/models.py is missing;
    it is the projection with id, title and the recipe holding only the
    color field of each entry. *)
Definition short (d : t) : result json :=
  match json_loads (recipe d) with
  | Some (JArr entries) =>
      es ← mapM short_entry entries;
      Ok (JObj [("id", id_json d); ("title", title d); ("recipe", JArr es)])
  | Some _ => Raise TypeError
  | None => Raise JSONDecodeError
  end.

(** Modelled from the spec: the id that [insert] assigns to a new row
    (server-assigned, unique): one more than the largest id in the table. *)
Definition next_id (m : gmap Z (json * string)) : Z :=
  1 + foldr Z.max 0 (map fst (map_to_list m)).

(** Modelled from the spec: [Drink.query.all()], the repository's
    [list_all]. *)
Definition query_all : Py (list t) :=
  fun db => (Ok (map (fun kv => of_row (fst kv) (snd kv)) (map_to_list (rows db))), db).

(** Modelled from the spec: [Drink.query.filter_by(id=id).one_or_none()],
    the repository's [get]. *)
Definition one_or_none (k : Z) : Py (option t) :=
  fun db => (Ok (of_row k <$> rows db !! k), db).

(** Modelled from the spec: [Drink.insert] of database/models.py is missing.
    It persists the object: a new object gets its id and a new row, an
    object that is already persistent has its row overwritten (the update
    handler calls it for that). *)
Definition insert (d : t) : Py t :=
  fun db =>
    if commit_fails db then (Raise StorageError, db)
    else
      let k := match id d with Some k => k | None => next_id (rows db) end in
      (Ok {| id := Some k; title := title d; recipe := recipe d |},
       {| rows := <[k := to_row d]> (rows db); commit_fails := commit_fails db |}).

(** Modelled from the spec: [Drink.delete] of database/models.py is missing.
    It removes the row of the object. *)
Definition delete (d : t) : Py unit :=
  fun db =>
    if commit_fails db then (Raise StorageError, db)
    else
      match id d with
      | Some k =>
          (Ok tt, {| rows := base.delete k (rows db); commit_fails := commit_fails db |})
      | None => (Raise StorageError, db)
      end.

End Drink.

(** ** Requests and responses *)

(** What a view reads from flask's [request]: the Authorization header and
    the value of [request.get_json()] ([JNull] when it returns [None]). *)
Record Request : Type := {
  authorization : option string;
  get_json : json
}.

Inductive Body : Type :=
| Json (j : json)
| Html.                                 (* werkzeug's own error page *)

Record Response : Type := { body : Body; status : Z }.

(** [jsonify(d)], returned alone (status 200) or with a status. *)
Definition jsonify (d : list (string * json)) : Response :=
  {| body := Json (JObj d); status := 200 |}.

Definition with_status (r : Response) (code : Z) : Response :=
  {| body := body r; status := code |}.

(** ** Authorization *)

Module Auth.

(** Modelled from the spec: the failure kinds of the token verifier and of
    the permission guard (auth/auth.py is missing), each with its name as
    its message. *)
Inductive kind : Type :=
| MissingHeader | MalformedHeader | InvalidHeader
| TokenExpired | InvalidClaims | PermissionMissing.

Definition message (k : kind) : string :=
  match k with
  | MissingHeader => "MissingHeader"
  | MalformedHeader => "MalformedHeader"
  | InvalidHeader => "InvalidHeader"
  | TokenExpired => "TokenExpired"
  | InvalidClaims => "InvalidClaims"
  | PermissionMissing => "PermissionMissing"
  end.

(** Modelled from the spec: the authorization error of auth/auth.py is
    missing; every failure kind carries its own message and a 401
    status. *)
Definition failure (k : kind) : AuthError :=
  {| error := JStr (message k); status_code := 401 |}.

Fixpoint split (sep : ascii) (s : string) : list string :=
  match s with
  | EmptyString => [EmptyString]
  | String c r =>
      if (c =? sep)%char then EmptyString :: split sep r
      else match split sep r with
           | h :: t => String c h :: t
           | [] => [String c EmptyString]
           end
  end.

(** Modelled from the spec: [get_token_auth_header] of auth/auth.py is
    missing. The header is absent, or is not two space-separated parts the
    first of which is the scheme Bearer, or yields the token. *)
Definition get_token_auth_header (h : option string) : result string :=
  match h with
  | None => Raise (AuthFailure (failure MissingHeader))
  | Some v =>
      match split " " v with
      | [scheme; token] =>
          if String.eqb scheme "Bearer" then Ok token
          else Raise (AuthFailure (failure MalformedHeader))
      | _ => Raise (AuthFailure (failure MalformedHeader))
      end
  end.

(** Modelled from the spec: the permissions of the claims, an absent entry
    being the empty set. *)
Definition permissions (claims : json) : list json :=
  match claims with
  | JObj d =>
      match dict_get "permissions" d with
      | Some (JArr l) => l
      | _ => []
      end
  | _ => []
  end.

(** Modelled from the spec: the permission check of the guard, membership of
    the permission string in the permissions of the claims. *)
Definition has_permission (permission : string) (claims : json) : bool :=
  existsb (is_str permission) (permissions claims).

Definition check_permissions (permission : string) (claims : json) : result unit :=
  if has_permission permission claims then Ok tt
  else Raise (AuthFailure (failure PermissionMissing)).

Section Guard.
(** The token verifier (signature, expiry, audience and issuer checks
    against the configured key set): from a token to an authorization
    error or to its claims. *)
Variable verify_decode_jwt : string -> AuthError + json.

Definition verified (token : string) : result json :=
  match verify_decode_jwt token with
  | inl e => Raise (AuthFailure e)
  | inr payload => Ok payload
  end.

(** Modelled from the spec: the decorator [requires_auth(permission)] of
    auth/auth.py is missing. It verifies the token, checks the permission
    and only then calls the wrapped view with the claims. *)
Definition requires_auth {A} (permission : string)
    (f : json -> Request -> Py A) (req : Request) : Py A :=
  token ← lift (get_token_auth_header (authorization req));
  payload ← lift (verified token);
  _ ← lift (check_permissions permission payload);
  f payload req.

(** The claims of the request when its token is valid. *)
Definition claims_of (req : Request) : option json :=
  match get_token_auth_header (authorization req) with
  | Ok token =>
      match verify_decode_jwt token with
      | inr payload => Some payload
      | inl _ => None
      end
  | Raise _ => None
  end.

Definition grants (req : Request) (permission : string) : bool :=
  match claims_of req with
  | Some payload => has_permission permission payload
  | None => false
  end.
End Guard.

End Auth.

(** ** Views (api.py) *)

Definition drinks (req : Request) : Py Response :=
  drinks ← Drink.query_all;
  if (length drinks =? 0)%nat then abort 404
  else
    drinks_short ← lift (mapM Drink.short drinks);
    mret (jsonify [("success", JBool true); ("drinks", JArr drinks_short)]).

Definition drinks_detail (payload : json) (req : Request) : Py Response :=
  drinks ← Drink.query_all;
  if (length drinks =? 0)%nat then abort 404
  else
    drinks_long ← lift (mapM Drink.long drinks);
    mret (jsonify [("success", JBool true); ("drinks", JArr drinks_long)]).

Definition add_drink (payload : json) (req : Request) : Py Response :=
  let body := get_json req in
  title ← lift (py_getitem body "title");
  recipe ← lift (py_getitem body "recipe");
  let drink := {| Drink.id := None; Drink.title := title;
                  Drink.recipe := json_dumps recipe |} in
  drink ← try_except (Drink.insert drink) (abort 422);
  long ← lift (Drink.long drink);
  mret (jsonify [("success", JBool true); ("drinks", long)]).

Definition edit_drink_by_id (id : Z) (payload : json) (req : Request) : Py Response :=
  drink ← Drink.one_or_none id;
  match drink with
  | None => abort 404
  | Some drink =>
      let body := get_json req in
      has_title ← lift (py_in "title" body);
      drink ← (if has_title : bool then
                 title ← lift (py_getitem body "title");
                 mret {| Drink.id := Drink.id drink; Drink.title := title;
                         Drink.recipe := Drink.recipe drink |}
               else mret drink);
      has_recipe ← lift (py_in "recipe" body);
      drink ← (if has_recipe : bool then
                 recipe ← lift (py_getitem body "recipe");
                 mret {| Drink.id := Drink.id drink; Drink.title := Drink.title drink;
                         Drink.recipe := json_dumps recipe |}
               else mret drink);
      drink ← try_except (Drink.insert drink) (abort 400);
      long ← lift (Drink.long drink);
      mret (jsonify [("success", JBool true); ("drinks", JArr [long])])
  end.

Definition delete_drink (id : Z) (payload : json) (req : Request) : Py Response :=
  drink ← Drink.one_or_none id;
  match drink with
  | None => abort 404
  | Some drink =>
      _ ← try_except (Drink.delete drink) (abort 500);
      mret (jsonify [("success", JBool true); ("delete", JNum id)])
  end.

(** ** Error handlers (api.py) *)

Definition not_found (error : exn) : Response :=
  with_status
    (jsonify [("success", JBool false); ("error", JNum 404);
              ("message", JStr "resource not found")]) 404.

Definition unprocessable (error : exn) : Response :=
  with_status
    (jsonify [("success", JBool false); ("error", JNum 422);
              ("message", JStr "unprocessable")]) 422.

Definition bad_request (error : exn) : Response :=
  with_status
    (jsonify [("success", JBool false); ("error", JNum 400);
              ("message", JStr "bad request")]) 400.

Definition server_error (error : exn) : Response :=
  with_status
    (jsonify [("success", JBool false); ("error", JNum 500);
              ("message", JStr "server error")]) 500.

Definition handle_auth_errors (e : AuthError) : Response :=
  with_status
    (jsonify [("success", JBool false); ("error", JNum (status_code e));
              ("message", error e)]) 401.

(** ** The application: routes and flask's dispatch *)

Inductive Route : Type :=
| GET_drinks
| GET_drinks_detail
| POST_drinks
| PATCH_drinks (id : Z)
| DELETE_drinks (id : Z).

(** The permission named by the [requires_auth] decorator of a route. *)
Definition permission_of (r : Route) : option string :=
  match r with
  | GET_drinks => None
  | GET_drinks_detail => Some "get:drinks-detail"
  | POST_drinks => Some "post:drinks"
  | PATCH_drinks _ => Some "patch:drinks"
  | DELETE_drinks _ => Some "delete:drinks"
  end.

Section App.
Variable verify_decode_jwt : string -> AuthError + json.

Definition view (r : Route) : Request -> Py Response :=
  match r with
  | GET_drinks => drinks
  | GET_drinks_detail =>
      Auth.requires_auth verify_decode_jwt "get:drinks-detail" drinks_detail
  | POST_drinks =>
      Auth.requires_auth verify_decode_jwt "post:drinks" add_drink
  | PATCH_drinks id =>
      Auth.requires_auth verify_decode_jwt "patch:drinks" (edit_drink_by_id id)
  | DELETE_drinks id =>
      Auth.requires_auth verify_decode_jwt "delete:drinks" (delete_drink id)
  end.

(** flask's choice of an error handler: the handler registered for the
    code of an [abort], the one registered for [AuthError], and for any
    other exception the handler registered for 500. *)
Definition handle_exception (e : exn) : Response :=
  match e with
  | HTTPException code =>
      if code =? 404 then not_found e
      else if code =? 422 then unprocessable e
      else if code =? 400 then bad_request e
      else if code =? 500 then server_error e
      else {| body := Html; status := code |}
  | AuthFailure a => handle_auth_errors a
  | _ => server_error e
  end.

Definition respond (out : result Response * Db) : Response * Db :=
  match out with
  | (Ok resp, db) => (resp, db)
  | (Raise e, db) => (handle_exception e, db)
  end.

Definition full_dispatch_request (r : Route) (req : Request) (db : Db) :
    Response * Db :=
  respond (view r req db).
End App.

(** ** Vocabulary of the specification *)

(** The uniform error envelope. *)
Definition envelope (code message : json) : Body :=
  Json (JObj [("success", JBool false); ("error", code); ("message", message)]).







(** A stored recipe that reads back as structured data. *)
Definition valid_recipe (recipe : string) : bool :=
  match json_loads recipe with
  | Some _ => true
  | None => false
  end.

(** The characters with which a JSON text can begin, white space apart, for
    Python's scanner: a quote, a bracket or a brace, the first letter of
    null, true, false, NaN or Infinity, a digit or a minus sign. *)
Definition can_start_json (c : ascii) : bool :=
  (c =? Text.dquote)%char || (c =? "{")%char || (c =? "[")%char ||
  (c =? "n")%char || (c =? "t")%char || (c =? "f")%char ||
  (c =? "N")%char || (c =? "I")%char || (c =? "-")%char || is_digit c.

(** A text that no JSON parser reads: it is empty, white space apart, or its
    first character cannot begin a JSON value. *)
Definition not_json (s : string) : bool :=
  match skip_ws s with
  | EmptyString => true
  | String c _ => negb (can_start_json c)
  end.

(** The invariant of the data model: every stored recipe reads back as
    structured data. *)
Definition valid_table (db : Db) : Prop :=
  forall k row, rows db !! k = Some row -> valid_recipe (snd row) = true.

(** ** Outcomes of a view *)

(** An exception for which a handler producing the envelope is chosen: an
    [abort] with one of the four registered codes, or anything that is not an
    [abort]. *)
Definition handled (e : exn) : Prop :=
  match e with
  | HTTPException code => code ∈ [404; 422; 400; 500]
  | _ => True
  end.

Definition rtame {A} (r : result A) : Prop :=
  match r with
  | Ok _ => True
  | Raise e => handled e
  end.

Definition tame {A} (P : A -> Prop) (out : result A * Db) : Prop :=
  match fst out with
  | Ok a => P a
  | Raise e => handled e
  end.

Definition ok200 (resp : Response) : Prop := status resp = 200.

(** An exception that is neither an [abort] nor an authorization error: one
    that the views do not expect ([KeyError], [TypeError], ...). *)
Definition unexpected (e : exn) : bool :=
  match e with
  | HTTPException _ | AuthFailure _ => false
  | _ => true
  end.

Definition updated (db : Db) (k : Z) (row : json * string) : Db :=
  {| rows := <[k := row]> (rows db); commit_fails := commit_fails db |}.

Definition removed (db : Db) (k : Z) : Db :=
  {| rows := delete k (rows db); commit_fails := commit_fails db |}.

Definition finish (db : Db) (r : result Response) : result Response * Db := (r, db).

(** The title and the recipe that an update stores, from the request body and
    the row it found. *)
Definition new_title (body : json) (row : json * string) : result json :=
  has_title ← py_in "title" body;
  if has_title : bool then py_getitem body "title" else Ok (fst row).

Definition new_recipe (body : json) (row : json * string) : result string :=
  has_recipe ← py_in "recipe" body;
  if has_recipe : bool then r ← py_getitem body "recipe"; Ok (json_dumps r)
  else Ok (snd row).

(** ** Serialized texts *)

Module Grammar.
Import Text.

(** What may follow a number in a serialized text: never a digit. *)
Definition no_digit_head (s : string) : bool :=
  match s with
  | EmptyString => true
  | String c _ => negb (is_digit c)
  end.

Definition nonzero_head (u : Decimal.uint) : bool :=
  match u with
  | Decimal.Nil | Decimal.D0 _ => false
  | _ => true
  end.

(** Every serialized value starts with a character that is neither white
    space nor a closing bracket. *)
Definition value_start (c : ascii) : bool :=
  negb (is_ws c) && negb (c =? "]")%char && negb (c =? "}")%char.

Definition num_start (c : ascii) : bool := (c =? "-")%char || is_digit c.

(** A parser [pv] reads back the value [v]. *)
Definition reads (pv : string -> option (json * string)) (v : json) : Prop :=
  forall rest, no_digit_head rest = true ->
    pv (json_dumps v +:+ rest) = Some (v, rest).

Definition member (kv : string * json) : string :=
  match kv with
  | (k, x) => quote k +:+ ": " +:+ json_dumps x
  end.

Definition set_member (d : list (string * json)) (kv : string * json) :=
  dict_set (fst kv) (snd kv) d.

Fixpoint size (v : json) : nat :=
  match v with
  | JArr l => S (list_sum (map size l))
  | JObj kvs => S (list_sum (map (fun kv => match kv with (_, x) => size x end) kvs))
  | _ => 1
  end.

End Grammar.

(** ** Sample data *)

Module Sample.

Definition manager : json :=
  JObj [("permissions",
         JArr [JStr "get:drinks-detail"; JStr "post:drinks";
               JStr "patch:drinks"; JStr "delete:drinks"])].

Definition barista : json :=
  JObj [("permissions", JArr [JStr "get:drinks-detail"])].

(** A verifier that knows two tokens. *)
Definition verify (token : string) : AuthError + json :=
  if String.eqb token "manager" then inr manager
  else if String.eqb token "barista" then inr barista
  else inl (Auth.failure Auth.InvalidHeader).

Definition as_manager (b : json) : Request :=
  {| authorization := Some "Bearer manager"; get_json := b |}.

Definition as_barista (b : json) : Request :=
  {| authorization := Some "Bearer barista"; get_json := b |}.

Definition anonymous : Request :=
  {| authorization := None; get_json := JNull |}.

Definition empty : Db := {| rows := ∅; commit_fails := false |}.

Definition water_recipe : json :=
  JArr [JObj [("color", JStr "blue"); ("parts", JNum 1)]].

Definition water : json :=
  JObj [("title", JStr "Water"); ("recipe", water_recipe)].

(** The table after [POST /drinks] of water on the empty table. *)
Definition one_drink : Db :=
  snd (full_dispatch_request verify POST_drinks (as_manager water) empty).

(** A recipe whose entry has a field besides color and parts. *)
Definition coffee_recipe : json :=
  JArr [JObj [("name", JStr "espresso"); ("color", JStr "brown");
              ("parts", JNum 2)]].

Definition coffee : json :=
  JObj [("title", JStr "Coffee"); ("recipe", coffee_recipe)].

Definition with_coffee : Db :=
  snd (full_dispatch_request verify POST_drinks (as_manager coffee) empty).

End Sample.

(** * Facts *)

Module TextFacts.

Lemma sapp_nil_l (s : string) : EmptyString +:+ s = s.
Proof. reflexivity. Qed.

Lemma sapp_cons (c : ascii) (s t : string) :
  String c s +:+ t = String c (s +:+ t).
Proof. reflexivity. Qed.

Lemma sapp_assoc (s t u : string) : (s +:+ t) +:+ u = s +:+ (t +:+ u).
Proof.
  induction s as [|c s IH]; [reflexivity|].
  rewrite !sapp_cons. by rewrite IH.
Qed.

Lemma sapp_nil_r (s : string) : s +:+ EmptyString = s.
Proof.
  induction s as [|c s IH]; [reflexivity|].
  rewrite sapp_cons. by rewrite IH.
Qed.

Lemma length_sapp (s t : string) :
  String.length (s +:+ t) = (String.length s + String.length t)%nat.
Proof.
  induction s as [|c s IH]; [reflexivity|].
  rewrite sapp_cons. simpl. by rewrite IH.
Qed.

End TextFacts.

(** ** json.loads after json.dumps *)

Module RoundTrip.
Import Text TextFacts Grammar.

Lemma scan_escape_char (c : ascii) (r : string) :
  scan_string (escape_char c +:+ r) = push c (scan_string r).
Proof. destruct c as [[] [] [] [] [] [] [] []]; reflexivity. Qed.

Lemma scan_escape (s rest : string) :
  scan_string (escape s +:+ String dquote rest) = Some (s, rest).
Proof.
  induction s as [|c s IH]; [reflexivity|].
  simpl escape. rewrite sapp_assoc, scan_escape_char, IH. reflexivity.
Qed.

Lemma scan_uint_stop (rest : string) :
  no_digit_head rest = true -> scan_uint rest = (Decimal.Nil, rest).
Proof.
  destruct rest as [|c r]; [reflexivity|].
  unfold no_digit_head, is_digit. simpl scan_uint.
  destruct (digit c); [discriminate|reflexivity].
Qed.

Lemma scan_uint_print (d : Decimal.uint) (rest : string) :
  no_digit_head rest = true ->
  scan_uint (NilEmpty.string_of_uint d +:+ rest) = (d, rest).
Proof.
  intros Hrest.
  induction d as [|d IH|d IH|d IH|d IH|d IH|d IH|d IH|d IH|d IH|d IH];
    [by apply scan_uint_stop|..];
    simpl NilEmpty.string_of_uint; rewrite sapp_cons;
    simpl scan_uint; rewrite IH; reflexivity.
Qed.

Lemma scan_nat_print (u : Decimal.uint) (rest : string) :
  nonzero_head u = true -> no_digit_head rest = true ->
  scan_nat (NilEmpty.string_of_uint u +:+ rest) = Some (Z.of_uint u, rest).
Proof.
  intros Hu Hrest.
  pose proof (scan_uint_print u rest Hrest) as Hscan.
  destruct u; try discriminate Hu;
    simpl NilEmpty.string_of_uint in *; rewrite sapp_cons in *;
    unfold scan_nat; simpl Ascii.eqb; cbv iota; rewrite Hscan; reflexivity.
Qed.

Lemma nzhead_not_D0 (u u' : Decimal.uint) : Decimal.nzhead u <> Decimal.D0 u'.
Proof. induction u; simpl; congruence. Qed.

Lemma to_uint_nonzero_head (p : positive) : nonzero_head (Pos.to_uint p) = true.
Proof.
  pose proof (DecimalPos.Unsigned.to_of (Pos.to_uint p)) as Hn.
  rewrite DecimalPos.Unsigned.of_to in Hn. simpl N.to_uint in Hn.
  pose proof (DecimalPos.Unsigned.to_uint_nonnil p) as Hnil.
  pose proof (DecimalPos.Unsigned.to_uint_nonzero p) as Hz.
  destruct (Pos.to_uint p) as [|u| | | | | | | | |] eqn:E; try reflexivity.
  - congruence.
  - exfalso. unfold Decimal.unorm in Hn. simpl Decimal.nzhead in Hn.
    destruct (Decimal.nzhead u) eqn:Eh; try congruence.
    by apply (nzhead_not_D0 u u0).
Qed.

Lemma of_uint_to_uint (p : positive) : Z.of_uint (Pos.to_uint p) = Z.pos p.
Proof. unfold Z.of_uint. by rewrite DecimalPos.Unsigned.of_to. Qed.

Lemma scan_int_print (n : Z) (rest : string) :
  no_digit_head rest = true ->
  scan_int (str_of_Z n +:+ rest) = Some (n, rest).
Proof.
  intros Hrest. unfold str_of_Z.
  destruct n as [|p|p]; simpl Z.to_int; unfold NilZero.string_of_int.
  - reflexivity.
  - pose proof (to_uint_nonzero_head p) as Hh.
    pose proof (scan_nat_print _ rest Hh Hrest) as Hs.
    unfold NilZero.string_of_uint.
    destruct (Pos.to_uint p) eqn:E; try discriminate Hh;
      simpl NilEmpty.string_of_uint in *; rewrite sapp_cons in *;
      unfold scan_int; simpl Ascii.eqb; cbv iota; rewrite Hs;
      rewrite <- E, of_uint_to_uint; reflexivity.
  - pose proof (to_uint_nonzero_head p) as Hh.
    pose proof (scan_nat_print _ rest Hh Hrest) as Hs.
    unfold NilZero.string_of_uint.
    destruct (Pos.to_uint p) eqn:E; try discriminate Hh;
      rewrite sapp_cons; unfold scan_int; simpl Ascii.eqb; cbv iota;
      rewrite Hs; rewrite <- E, of_uint_to_uint; reflexivity.
Qed.

Lemma str_of_Z_head (n : Z) :
  exists c r, str_of_Z n = String c r /\ num_start c = true.
Proof.
  unfold str_of_Z.
  destruct n as [|p|p]; simpl Z.to_int; unfold NilZero.string_of_int;
    [by eexists _, _| |by eexists _, _].
  pose proof (to_uint_nonzero_head p) as Hh. unfold NilZero.string_of_uint.
  destruct (Pos.to_uint p); try discriminate Hh; by eexists _, _.
Qed.

Lemma num_start_value_start (c : ascii) :
  num_start c = true -> value_start c = true.
Proof.
  destruct c as [[] [] [] [] [] [] [] []]; intros H; try discriminate H; reflexivity.
Qed.

Lemma dumps_head (v : json) :
  exists c r, json_dumps v = String c r /\ value_start c = true.
Proof.
  destruct v as [|[]|n|x|l|kvs]; try by eexists _, _.
  simpl json_dumps. destruct (str_of_Z_head n) as (c & r & -> & Hc).
  exists c, r. by split; [|apply num_start_value_start].
Qed.

Lemma skip_ws_dumps (v : json) (t : string) :
  skip_ws (json_dumps v +:+ t) = json_dumps v +:+ t.
Proof.
  destruct (dumps_head v) as (c & r & -> & Hc).
  rewrite sapp_cons. simpl skip_ws.
  unfold value_start in Hc. by destruct (is_ws c).
Qed.

Lemma starts_with_dumps (v : json) (t : string) :
  starts_with "]" (json_dumps v +:+ t) = false.
Proof.
  destruct (dumps_head v) as (c & r & -> & Hc).
  rewrite sapp_cons. simpl starts_with.
  unfold value_start in Hc. destruct (c =? "]")%char; [|done].
  by rewrite andb_false_r in Hc.
Qed.

Lemma parse_value_num (f : nat) (c : ascii) (r : string) :
  num_start c = true ->
  parse_value (S f) (String c r) =
    match scan_int (String c r) with
    | Some (n, rest) => Some (JNum n, rest)
    | None => None
    end.
Proof.
  destruct c as [[] [] [] [] [] [] [] []]; intros H; try discriminate H; reflexivity.
Qed.

Lemma parse_elems_print pv (l : list json) :
  forall x g acc rest,
    Forall (reads pv) (x :: l) -> (length (x :: l) <= g)%nat ->
    parse_elems pv g (join ", " (map json_dumps (x :: l)) +:+ String "]" rest) acc
    = Some (rev acc ++ x :: l, rest).
Proof.
  induction l as [|y l IH]; intros x g acc rest Hall Hg;
    (destruct g as [|g]; [simpl in Hg; lia|]);
    apply Forall_cons_1 in Hall as [Hx Hl].
  - simpl. rewrite Hx by done. reflexivity.
  - change (join ", " (map json_dumps (x :: y :: l)))
      with (json_dumps x +:+ ", " +:+ join ", " (map json_dumps (y :: l))).
    assert (Hskip : skip_ws (join ", " (map json_dumps (y :: l)) +:+ String "]" rest)
                    = join ", " (map json_dumps (y :: l)) +:+ String "]" rest).
    { destruct l; simpl join; rewrite ?sapp_assoc; apply skip_ws_dumps. }
    specialize (IH y g (x :: acc) rest Hl).
    remember (join ", " (map json_dumps (y :: l)) +:+ String "]" rest) as tl eqn:Etl.
    rewrite !sapp_assoc, <- Etl. simpl parse_elems. rewrite Hx by done.
    rewrite !sapp_cons, sapp_nil_l.
    change (parse_elems pv g (skip_ws tl) (x :: acc)
            = Some (rev acc ++ x :: y :: l, rest)).
    rewrite Hskip, IH by (simpl in *; lia).
    simpl. by rewrite <- List.app_assoc.
Qed.

Lemma member_text (k : string) (x : json) (t : string) :
  member (k, x) +:+ t
  = String dquote (escape k +:+ String dquote (String ":" (String " " (json_dumps x +:+ t)))).
Proof.
  unfold member, quote.
  by rewrite !sapp_assoc, !sapp_cons, !sapp_assoc, !sapp_cons, !sapp_nil_l.
Qed.

Lemma parse_members_step pv (g : nat) (k : string) (x : json) (t : string) acc :
  reads pv x -> no_digit_head t = true ->
  parse_members pv (S g) (member (k, x) +:+ t) acc
  = match skip_ws t with
    | String c s =>
        if (c =? ",")%char then parse_members pv g (skip_ws s) (dict_set k x acc)
        else if (c =? "}")%char then Some (dict_set k x acc, s)
        else None
    | EmptyString => None
    end.
Proof.
  intros Hx Ht. rewrite member_text.
  remember (json_dumps x +:+ t) as body eqn:Ebody.
  simpl parse_members. rewrite scan_escape.
  change (skip_ws (String ":" (String " " body))) with (String ":" (String " " body)).
  change (skip_ws (String " " body)) with (skip_ws body).
  cbn. subst body. rewrite skip_ws_dumps, Hx by done. reflexivity.
Qed.

Lemma skip_ws_member kv (t : string) : skip_ws (member kv +:+ t) = member kv +:+ t.
Proof. destruct kv as [k x]. by rewrite member_text. Qed.

Lemma skip_ws_members kv kvs (t : string) :
  skip_ws (join ", " (map member (kv :: kvs)) +:+ t)
  = join ", " (map member (kv :: kvs)) +:+ t.
Proof. destruct kvs; simpl join; rewrite ?sapp_assoc; apply skip_ws_member. Qed.

Lemma parse_members_print pv (kvs : list (string * json)) :
  forall kv g acc rest,
    Forall (fun kv => reads pv (snd kv)) (kv :: kvs) ->
    (length (kv :: kvs) <= g)%nat ->
    parse_members pv g (join ", " (map member (kv :: kvs)) +:+ String "}" rest) acc
    = Some (fold_left set_member (kv :: kvs) acc, rest).
Proof.
  induction kvs as [|kv2 kvs IH]; intros [k x] g acc rest Hall Hg;
    (destruct g as [|g]; [simpl in Hg; lia|]);
    apply Forall_cons_1 in Hall as [Hx Hl].
  - change (join ", " (map member [(k, x)])) with (member (k, x)).
    by rewrite parse_members_step.
  - change (join ", " (map member ((k, x) :: kv2 :: kvs)))
      with (member (k, x) +:+ ", " +:+ join ", " (map member (kv2 :: kvs))).
    pose proof (skip_ws_members kv2 kvs (String "}" rest)) as Hskip.
    specialize (IH kv2 g (dict_set k x acc) rest Hl).
    remember (join ", " (map member (kv2 :: kvs)) +:+ String "}" rest) as tl eqn:Etl.
    rewrite !sapp_assoc, <- Etl, !sapp_cons, sapp_nil_l.
    rewrite parse_members_step by done.
    change (parse_members pv g (skip_ws tl) (dict_set k x acc)
            = Some (fold_left set_member ((k, x) :: kv2 :: kvs) acc, rest)).
    rewrite Hskip, IH by (simpl in *; lia). reflexivity.
Qed.

Lemma dict_set_fresh (k : string) (v : json) (d : list (string * json)) :
  k ∉ map fst d -> dict_set k v d = d ++ [(k, v)].
Proof.
  induction d as [|[k' v'] d IH]; intros Hk; [reflexivity|].
  simpl in *. apply not_elem_of_cons in Hk as [Hne Hk].
  destruct (String.eqb_spec k k') as [->|_]; [done|].
  by rewrite IH.
Qed.

Lemma fold_set_member_nodup (kvs acc : list (string * json)) :
  NoDup (map fst (acc ++ kvs)) -> fold_left set_member kvs acc = acc ++ kvs.
Proof.
  revert acc. induction kvs as [|[k v] kvs IH]; intros acc Hnd.
  - by rewrite app_nil_r.
  - simpl. unfold set_member at 2. simpl.
    assert (Hacc : acc ++ (k, v) :: kvs = (acc ++ [(k, v)]) ++ kvs)
      by (by rewrite <- List.app_assoc).
    rewrite Hacc in Hnd |- *.
    rewrite dict_set_fresh.
    + by apply IH.
    + rewrite !map_app in Hnd. apply NoDup_app in Hnd as (Hnd & _ & _).
      apply NoDup_app in Hnd as (_ & Hdisj & _).
      intros Hin. apply (Hdisj k Hin). simpl. by left.
Qed.

Lemma size_pos (v : json) : (1 <= size v)%nat.
Proof. destruct v; simpl; lia. Qed.

Lemma parse_value_arr (f : nat) (r : string) :
  parse_value (S f) (String "[" r)
  = if starts_with "]" (skip_ws r) then Some (JArr [], tail (skip_ws r))
    else match parse_elems (parse_value f) f (skip_ws r) [] with
         | Some (l, rest) => Some (JArr l, rest)
         | None => None
         end.
Proof. reflexivity. Qed.

Lemma parse_value_obj (f : nat) (r : string) :
  parse_value (S f) (String "{" r)
  = if starts_with "}" (skip_ws r) then Some (JObj [], tail (skip_ws r))
    else match parse_members (parse_value f) f (skip_ws r) [] with
         | Some (kvs, rest) => Some (JObj kvs, rest)
         | None => None
         end.
Proof. reflexivity. Qed.

Lemma size_elem (x : json) (l : list json) :
  x ∈ l -> (size x <= list_sum (map size l))%nat.
Proof.
  induction l as [|y l IH]; intros Hin; [by apply elem_of_nil in Hin|].
  apply elem_of_cons in Hin as [->|Hin]; simpl; [lia|].
  specialize (IH Hin). lia.
Qed.

Lemma length_le_sizes {A} (sz : A -> nat) (l : list A) :
  (forall x, 1 <= sz x)%nat -> (length l <= list_sum (map sz l))%nat.
Proof.
  intros Hsz. induction l as [|y l IH]; simpl; [lia|].
  specialize (Hsz y). lia.
Qed.

Lemma size_member (kv : string * json) (kvs : list (string * json)) :
  kv ∈ kvs ->
  (size (snd kv)
   <= list_sum (map (fun kv => match kv with (_, x) => size x end) kvs))%nat.
Proof.
  induction kvs as [|[k y] kvs IH]; intros Hin; [by apply elem_of_nil in Hin|].
  apply elem_of_cons in Hin as [->|Hin]; simpl; [lia|].
  specialize (IH Hin). lia.
Qed.

(** The parser reads back every serialized Python value, given fuel for
    its size. *)
Lemma parse_value_dumps (v : json) :
  wf_json v = true -> forall f, (size v <= f)%nat -> reads (parse_value f) v.
Proof.
  induction v as [|b|n|x|l IH|kvs IH] using json_nested_ind;
    intros Hwf f Hf rest Hrest;
    (destruct f as [|f]; [simpl in Hf; lia|]).
  - reflexivity.
  - by destruct b.
  - simpl json_dumps.
    destruct (str_of_Z_head n) as (c & r & E & Hc).
    pose proof (scan_int_print n rest Hrest) as Hscan.
    rewrite E in *. rewrite sapp_cons in *.
    by rewrite parse_value_num, Hscan.
  - simpl json_dumps. unfold quote. rewrite sapp_cons, sapp_assoc, sapp_cons, sapp_nil_l.
    simpl parse_value. by rewrite scan_escape.
  - change (json_dumps (JArr l)) with ("[" +:+ join ", " (map json_dumps l) +:+ "]").
    rewrite !sapp_cons, !sapp_nil_l, sapp_assoc, sapp_cons, sapp_nil_l.
    rewrite parse_value_arr.
    destruct l as [|y l]; [reflexivity|].
    assert (Hskip : skip_ws (join ", " (map json_dumps (y :: l)) +:+ String "]" rest)
                    = join ", " (map json_dumps (y :: l)) +:+ String "]" rest).
    { destruct l; simpl join; rewrite ?sapp_assoc; apply skip_ws_dumps. }
    assert (Hstart : starts_with "]"
              (join ", " (map json_dumps (y :: l)) +:+ String "]" rest) = false).
    { destruct l; simpl join; rewrite ?sapp_assoc; apply starts_with_dumps. }
    rewrite Hskip, Hstart.
    rewrite (parse_elems_print _ l y f [] rest); [reflexivity| |].
    + change (forallb wf_json (y :: l) = true) in Hwf. simpl size in Hf.
      apply Forall_forall. intros z Hz.
      rewrite Forall_forall in IH. apply IH; [done| |].
      * apply (proj1 (forallb_forall _ _) Hwf). by apply list_elem_of_In.
      * pose proof (size_elem z (y :: l) Hz). simpl in *. lia.
    + simpl size in Hf.
      pose proof (length_le_sizes size (y :: l) size_pos). simpl in *. lia.
  - change (json_dumps (JObj kvs)) with ("{" +:+ join ", " (map member kvs) +:+ "}").
    rewrite !sapp_cons, !sapp_nil_l, sapp_assoc, sapp_cons, sapp_nil_l.
    rewrite parse_value_obj.
    destruct kvs as [|kv kvs]; [reflexivity|].
    rewrite skip_ws_members.
    assert (Hstart : starts_with "}"
              (join ", " (map member (kv :: kvs)) +:+ String "}" rest) = false).
    { destruct kv as [k y].
      destruct kvs as [|kv2 kvs];
        [change (join ", " (map member [(k, y)])) with (member (k, y))
        |change (join ", " (map member ((k, y) :: kv2 :: kvs)))
           with (member (k, y) +:+ ", " +:+ join ", " (map member (kv2 :: kvs)))];
        rewrite ?sapp_assoc; by rewrite member_text. }
    rewrite Hstart.
    change (bool_decide (NoDup (map fst (kv :: kvs))) &&
            forallb (fun kv => match kv with (_, x) => wf_json x end) (kv :: kvs)
            = true) in Hwf.
    apply andb_true_iff in Hwf as [Hnd Hwf].
    apply bool_decide_eq_true in Hnd.
    rewrite (parse_members_print _ kvs kv f [] rest).
    + by rewrite fold_set_member_nodup.
    + simpl size in Hf.
      apply Forall_forall. intros z Hz.
      rewrite Forall_forall in IH. apply IH; [done| |].
      * pose proof (proj1 (forallb_forall _ _) Hwf z) as Hz'.
        destruct z as [k y]. apply Hz'. by apply list_elem_of_In.
      * pose proof (size_member z (kv :: kvs) Hz). simpl in *. lia.
    + simpl size in Hf.
      pose proof (length_le_sizes
                    (fun kv : string * json => match kv with (_, x) => size x end)
                    (kv :: kvs)) as Hlen.
      simpl in *. apply le_S_n in Hf. etrans; [|exact Hf].
      apply Hlen. intros [k y]. apply size_pos.
Qed.

Lemma sizes_le_join {A} (sz : A -> nat) (txt : A -> string) (sep : string)
    (l : list A) :
  Forall (fun x => sz x <= String.length (txt x))%nat l ->
  (list_sum (map sz l) <= String.length (join sep (map txt l)))%nat.
Proof.
  induction l as [|x l IH]; intros Hall; [simpl; lia|].
  apply Forall_cons_1 in Hall as [Hx Hl]. specialize (IH Hl).
  destruct l as [|y l]; [simpl in *; lia|].
  change (join sep (map txt (x :: y :: l)))
    with (txt x +:+ sep +:+ join sep (map txt (y :: l))).
  rewrite !length_sapp. simpl list_sum in *. lia.
Qed.

Lemma size_le_length (v : json) : (size v <= String.length (json_dumps v))%nat.
Proof.
  induction v as [|b|n|x|l IH|kvs IH] using json_nested_ind.
  - simpl; lia.
  - destruct b; simpl; lia.
  - simpl. destruct (str_of_Z_head n) as (c & r & -> & _). simpl; lia.
  - simpl; lia.
  - change (json_dumps (JArr l)) with ("[" +:+ join ", " (map json_dumps l) +:+ "]").
    rewrite !length_sapp. simpl size.
    pose proof (sizes_le_join size json_dumps ", " l IH). simpl String.length. lia.
  - change (json_dumps (JObj kvs)) with ("{" +:+ join ", " (map member kvs) +:+ "}").
    rewrite !length_sapp. simpl size.
    pose proof (sizes_le_join
                  (fun kv : string * json => match kv with (_, x) => size x end)
                  member ", " kvs) as Hj.
    simpl String.length. etrans; [apply le_n_S, Hj|lia].
    eapply Forall_impl; [exact IH|].
    intros [k x] Hx. unfold member. rewrite !length_sapp. simpl in *. lia.
Qed.

(** [json.loads(json.dumps(v)) == v] *)
Lemma json_loads_dumps (v : json) :
  wf_json v = true -> json_loads (json_dumps v) = Some v.
Proof.
  intros Hwf. unfold json_loads.
  pose proof (skip_ws_dumps v EmptyString) as Hskip.
  rewrite sapp_nil_r in Hskip. rewrite Hskip.
  pose proof (parse_value_dumps v Hwf (S (String.length (json_dumps v)))) as Hp.
  specialize (Hp ltac:(pose proof (size_le_length v); lia) EmptyString eq_refl).
  rewrite sapp_nil_r in Hp. by rewrite Hp.
Qed.

End RoundTrip.


(** ** The permission guard *)

Section GuardFacts.
Variable verify : string -> AuthError + json.

Lemma requires_auth_granted {A} (p : string) (f : json -> Request -> Py A)
    (req : Request) :
  Auth.grants verify req p = true ->
  exists payload, Auth.claims_of verify req = Some payload /\
    forall db, Auth.requires_auth verify p f req db = f payload req db.
Proof.
  unfold Auth.grants, Auth.claims_of, Auth.requires_auth, Auth.verified,
    Auth.check_permissions.
  cbv [mbind Py_bind lift].
  destruct (Auth.get_token_auth_header (authorization req)) as [token|]; [|done].
  destruct (verify token) as [|payload]; [done|].
  intros Hp. exists payload. split; [done|]. intros db. by rewrite Hp.
Qed.

Lemma requires_auth_denied {A} (p : string) (f : json -> Request -> Py A)
    (req : Request) (payload : json) (db : Db) :
  Auth.claims_of verify req = Some payload ->
  Auth.has_permission p payload = false ->
  Auth.requires_auth verify p f req db
  = (Raise (AuthFailure (Auth.failure Auth.PermissionMissing)), db).
Proof.
  unfold Auth.claims_of, Auth.requires_auth, Auth.verified, Auth.check_permissions.
  cbv [mbind Py_bind lift].
  destruct (Auth.get_token_auth_header (authorization req)) as [token|]; [|done].
  destruct (verify token) as [|payload']; [done|].
  intros [= ->] Hp. by rewrite Hp.
Qed.

Lemma view_guarded (r : Route) (p : string) :
  permission_of r = Some p ->
  exists f, view verify r = Auth.requires_auth verify p f.
Proof. destruct r; intros [= <-]; by eexists. Qed.
End GuardFacts.

(** ** What the views can raise *)

Lemma tame_bind {A B} (P : B -> Prop) (m : Py A) (f : A -> Py B) :
  (forall db, tame (fun _ => True) (m db)) ->
  (forall a db, tame P (f a db)) ->
  forall db, tame P ((m ≫= f) db).
Proof.
  intros Hm Hf db. unfold mbind, Py_bind. specialize (Hm db).
  destruct (m db) as [[a|e] db']; [apply Hf|exact Hm].
Qed.

Lemma tame_lift {A} (r : result A) (db : Db) :
  rtame r -> tame (fun _ => True) (lift r db).
Proof. by destruct r. Qed.

Lemma tame_ret {A} (P : A -> Prop) (a : A) (db : Db) :
  P a -> tame P ((mret a : Py A) db).
Proof. done. Qed.

Lemma tame_abort {A} (P : A -> Prop) (code : Z) (db : Db) :
  code ∈ [404; 422; 400; 500] -> tame P (abort code db).
Proof. done. Qed.

Lemma tame_try_except {A} (P : A -> Prop) (m h : Py A) :
  (forall db, tame P (h db)) ->
  (forall db a db', m db = (Ok a, db') -> P a) ->
  forall db, tame P (try_except m h db).
Proof.
  intros Hh Hm db. unfold try_except.
  destruct (m db) as [[a|e] db'] eqn:E; [by eapply Hm|apply Hh].
Qed.

Lemma rtame_getitem (obj : json) (key : string) : rtame (py_getitem obj key).
Proof. destruct obj; simpl; try done. by destruct (dict_get key kvs). Qed.

Lemma rtame_in (key : string) (obj : json) : rtame (py_in key obj).
Proof. by destruct obj. Qed.

Lemma rtame_long (d : Drink.t) : rtame (Drink.long d).
Proof. unfold Drink.long. by destruct (json_loads (Drink.recipe d)). Qed.

Lemma rtame_mapM {A B} (f : A -> result B) (l : list A) :
  (forall x, rtame (f x)) -> rtame (mapM f l).
Proof.
  intros Hf. induction l as [|x l IH]; [done|].
  simpl. unfold mbind, result_bind. specialize (Hf x).
  destruct (f x); [|done]. by destruct (mapM f l).
Qed.

Lemma rtame_short_entry (r : json) : rtame (Drink.short_entry r).
Proof.
  unfold Drink.short_entry, mbind, result_bind.
  pose proof (rtame_getitem r "color"). by destruct (py_getitem r "color").
Qed.

Lemma rtame_short (d : Drink.t) : rtame (Drink.short d).
Proof.
  unfold Drink.short.
  destruct (json_loads (Drink.recipe d)) as [[| | | |entries|]|]; try done.
  unfold mbind, result_bind.
  pose proof (rtame_mapM Drink.short_entry entries rtame_short_entry).
  by destruct (mapM Drink.short_entry entries).
Qed.

Lemma rtame_token (h : option string) : rtame (Auth.get_token_auth_header h).
Proof.
  unfold Auth.get_token_auth_header. destruct h as [v|]; [|done].
  destruct (Auth.split " " v) as [|scheme [|token [|]]]; try done.
  by destruct (String.eqb scheme "Bearer").
Qed.

Lemma tame_requires_auth {A} verify (P : A -> Prop) (p : string)
    (f : json -> Request -> Py A) (req : Request) :
  (forall payload db, tame P (f payload req db)) ->
  forall db, tame P (Auth.requires_auth verify p f req db).
Proof.
  intros Hf. unfold Auth.requires_auth.
  apply tame_bind; [intros db; apply tame_lift, rtame_token|intros token].
  apply tame_bind; [intros db; apply tame_lift|intros payload].
  { unfold Auth.verified. by destruct (verify token). }
  apply tame_bind; [intros db; apply tame_lift|intros _; apply Hf].
  unfold Auth.check_permissions. by destruct (Auth.has_permission p payload).
Qed.

Lemma elem_registered (code : Z) :
  code = 404 \/ code = 422 \/ code = 400 \/ code = 500 -> code ∈ [404; 422; 400; 500].
Proof. intros [->|[->|[->| ->]]]; set_solver. Qed.

Lemma tame_drinks (req : Request) (db : Db) : tame ok200 (drinks req db).
Proof.
  revert db. unfold drinks. apply tame_bind; [done|intros ds db].
  destruct (length ds =? 0)%nat; [apply tame_abort, elem_registered; auto|].
  revert db. apply tame_bind; [|done].
  intros db. apply tame_lift, rtame_mapM, rtame_short.
Qed.

Lemma tame_drinks_detail (payload : json) (req : Request) (db : Db) :
  tame ok200 (drinks_detail payload req db).
Proof.
  revert db. unfold drinks_detail. apply tame_bind; [done|intros ds db].
  destruct (length ds =? 0)%nat; [apply tame_abort, elem_registered; auto|].
  revert db. apply tame_bind; [|done].
  intros db. apply tame_lift, rtame_mapM, rtame_long.
Qed.

Lemma tame_insert_or_abort (code : Z) (d : Drink.t) (db : Db) :
  code ∈ [404; 422; 400; 500] ->
  tame (fun _ => True) (try_except (Drink.insert d) (abort code) db).
Proof. intros Hc. revert db. by apply tame_try_except. Qed.

Lemma tame_add_drink (payload : json) (req : Request) (db : Db) :
  tame ok200 (add_drink payload req db).
Proof.
  revert db. unfold add_drink.
  apply tame_bind; [intros db; apply tame_lift, rtame_getitem|intros title].
  apply tame_bind; [intros db; apply tame_lift, rtame_getitem|intros recipe].
  apply tame_bind;
    [intros db; apply tame_insert_or_abort, elem_registered; auto|intros d].
  apply tame_bind; [intros db; apply tame_lift, rtame_long|done].
Qed.

Lemma tame_edit_drink_by_id (id : Z) (payload : json) (req : Request) (db : Db) :
  tame ok200 (edit_drink_by_id id payload req db).
Proof.
  revert db. unfold edit_drink_by_id. apply tame_bind; [done|intros [d|] db].
  2: { apply tame_abort, elem_registered; auto. }
  revert db.
  apply tame_bind; [intros db; apply tame_lift, rtame_in|intros has_title].
  apply tame_bind.
  { destruct has_title; [|done].
    apply tame_bind; [intros db; apply tame_lift, rtame_getitem|done]. }
  intros d1.
  apply tame_bind; [intros db; apply tame_lift, rtame_in|intros has_recipe].
  apply tame_bind.
  { destruct has_recipe; [|done].
    apply tame_bind; [intros db; apply tame_lift, rtame_getitem|done]. }
  intros d2.
  apply tame_bind;
    [intros db; apply tame_insert_or_abort, elem_registered; auto|intros d3].
  apply tame_bind; [intros db; apply tame_lift, rtame_long|done].
Qed.

Lemma tame_delete_drink (id : Z) (payload : json) (req : Request) (db : Db) :
  tame ok200 (delete_drink id payload req db).
Proof.
  revert db. unfold delete_drink. apply tame_bind; [done|intros [d|] db].
  2: { apply tame_abort, elem_registered; auto. }
  revert db. apply tame_bind; [|done].
  apply tame_try_except; [|done].
  intros db. apply tame_abort, elem_registered; auto.
Qed.

Lemma tame_view verify (r : Route) (req : Request) (db : Db) :
  tame ok200 (view verify r req db).
Proof.
  destruct r; simpl view;
    [apply tame_drinks|apply tame_requires_auth; intros ??..].
  - apply tame_drinks_detail.
  - apply tame_add_drink.
  - apply tame_edit_drink_by_id.
  - apply tame_delete_drink.
Qed.

(** ** The write views, step by step *)

Lemma add_drink_run (payload : json) (req : Request) (db : Db) :
  add_drink payload req db =
  match py_getitem (get_json req) "title" with
  | Raise e => (Raise e, db)
  | Ok t =>
      match py_getitem (get_json req) "recipe" with
      | Raise e => (Raise e, db)
      | Ok r =>
          if commit_fails db then (Raise (HTTPException 422), db)
          else
            let k := Drink.next_id (rows db) in
            finish (updated db k (t, json_dumps r))
              (long ← Drink.long (Drink.of_row k (t, json_dumps r));
               Ok (jsonify [("success", JBool true); ("drinks", long)]))
      end
  end.
Proof.
  unfold add_drink, mbind at 1 2 3 4, Py_bind, lift, try_except, Drink.insert.
  destruct (py_getitem (get_json req) "title") as [t|]; [|done].
  destruct (py_getitem (get_json req) "recipe") as [r|]; [|done].
  unfold finish, updated, Drink.of_row, Drink.to_row, mbind, result_bind. simpl.
  destruct (commit_fails db); [done|]. by destruct (Drink.long _).
Qed.

Lemma edit_drink_by_id_run (id : Z) (payload : json) (req : Request) (db : Db) :
  edit_drink_by_id id payload req db =
  match rows db !! id with
  | None => (Raise (HTTPException 404), db)
  | Some row =>
      match new_title (get_json req) row with
      | Raise e => (Raise e, db)
      | Ok t =>
          match new_recipe (get_json req) row with
          | Raise e => (Raise e, db)
          | Ok rcp =>
              if commit_fails db then (Raise (HTTPException 400), db)
              else
                finish (updated db id (t, rcp))
                  (long ← Drink.long (Drink.of_row id (t, rcp));
                   Ok (jsonify [("success", JBool true); ("drinks", JArr [long])]))
          end
      end
  end.
Proof.
  unfold edit_drink_by_id, Drink.one_or_none, mbind at 1, Py_bind.
  destruct (rows db !! id) as [[t0 r0]|]; [|done]. simpl.
  unfold new_title, new_recipe, mbind, Py_bind, result_bind, lift, try_except,
    Drink.insert, finish, updated, Drink.of_row, Drink.to_row.
  destruct (py_in "title" (get_json req)) as [[]|]; [| |done];
    [destruct (py_getitem (get_json req) "title") as [t|]; [|done]|];
    simpl;
    (destruct (py_in "recipe" (get_json req)) as [[]|]; [| |done];
     [destruct (py_getitem (get_json req) "recipe") as [r|]; [|done]|];
     simpl; (destruct (commit_fails db); [done|]); by destruct (Drink.long _)).
Qed.

Lemma delete_drink_run (id : Z) (payload : json) (req : Request) (db : Db) :
  delete_drink id payload req db =
  match rows db !! id with
  | None => (Raise (HTTPException 404), db)
  | Some _ =>
      if commit_fails db then (Raise (HTTPException 500), db)
      else (Ok (jsonify [("success", JBool true); ("delete", JNum id)]), removed db id)
  end.
Proof.
  unfold delete_drink, Drink.one_or_none, mbind at 1, Py_bind.
  destruct (rows db !! id) as [row|]; [|done]. simpl.
  unfold mbind, Py_bind, try_except, Drink.delete, removed. simpl.
  by destruct (commit_fails db).
Qed.

(** A new row never takes the id of a row of the table. *)
Lemma next_id_fresh (m : gmap Z (json * string)) : m !! Drink.next_id m = None.
Proof.
  destruct (m !! Drink.next_id m) as [row|] eqn:E; [exfalso|done].
  apply elem_of_map_to_list in E.
  assert (Hle : forall (l : list (Z * (json * string))) k v,
            (k, v) ∈ l -> k <= foldr Z.max 0 (map fst l)).
  { induction l as [|[k' v'] l IH]; intros k v Hin; [by apply elem_of_nil in Hin|].
    apply elem_of_cons in Hin as [[= -> ->]|Hin]; simpl; [lia|].
    specialize (IH k v Hin). lia. }
  specialize (Hle _ _ _ E). unfold Drink.next_id in Hle. lia.
Qed.

Lemma granted_dispatch verify (r : Route) (p : string) (req : Request) :
  permission_of r = Some p -> Auth.grants verify req p = true ->
  exists payload, forall db,
    full_dispatch_request verify r req db =
    respond (match r with
             | GET_drinks => drinks req db
             | GET_drinks_detail => drinks_detail payload req db
             | POST_drinks => add_drink payload req db
             | PATCH_drinks id => edit_drink_by_id id payload req db
             | DELETE_drinks id => delete_drink id payload req db
             end).
Proof.
  intros Hr Hg. unfold full_dispatch_request.
  destruct r; simplify_eq/=.
  - destruct (requires_auth_granted verify _ drinks_detail req Hg) as (pl & _ & H).
    exists pl. intros db. by rewrite H.
  - destruct (requires_auth_granted verify _ add_drink req Hg) as (pl & _ & H).
    exists pl. intros db. by rewrite H.
  - destruct (requires_auth_granted verify _ (edit_drink_by_id id) req Hg) as (pl & _ & H).
    exists pl. intros db. by rewrite H.
  - destruct (requires_auth_granted verify _ (delete_drink id) req Hg) as (pl & _ & H).
    exists pl. intros db. by rewrite H.
Qed.

(** * The claims *)

(** C3. A request whose token is valid but whose claims lack the permission
    of a guarded route is answered 401; the guard fails whatever the wrapped
    view is, so the view is not called, and the table of drinks is the one
    before the request. *)
Theorem C3_missing_permission_is_401
    (verify : string -> AuthError + json) (r : Route) (p : string)
    (req : Request) (payload : json) (db : Db) :
  permission_of r = Some p ->
  Auth.claims_of verify req = Some payload ->
  Auth.has_permission p payload = false ->
  (forall f : json -> Request -> Py Response,
     Auth.requires_auth verify p f req db
     = (Raise (AuthFailure (Auth.failure Auth.PermissionMissing)), db)) /\
  status (fst (full_dispatch_request verify r req db)) = 401 /\
  snd (full_dispatch_request verify r req db) = db.
Proof.
  intros Hr Hc Hp.
  assert (Hguard : forall f : json -> Request -> Py Response,
            Auth.requires_auth verify p f req db
            = (Raise (AuthFailure (Auth.failure Auth.PermissionMissing)), db))
    by (intros f; by apply requires_auth_denied with payload).
  split; [exact Hguard|].
  destruct (view_guarded verify r p Hr) as [f Hf].
  unfold full_dispatch_request. rewrite Hf, Hguard. by split.
Qed.

Lemma C3_missing_permission_is_401_witness :
  status (fst (full_dispatch_request Sample.verify (DELETE_drinks 1)
                 (Sample.as_barista JNull) Sample.one_drink)) = 401 /\
  snd (full_dispatch_request Sample.verify (DELETE_drinks 1)
         (Sample.as_barista JNull) Sample.one_drink) = Sample.one_drink.
Proof.
  apply (C3_missing_permission_is_401 Sample.verify (DELETE_drinks 1)
           "delete:drinks" (Sample.as_barista JNull) Sample.barista
           Sample.one_drink); reflexivity.
Defined.

(** C4. On an empty table both list routes answer 404: the public one for any
    request, the detailed one for a request whose token grants
    get:drinks-detail. *)
Theorem C4_empty_table_is_404
    (verify : string -> AuthError + json) (req req' : Request) (db : Db) :
  rows db = ∅ ->
  Auth.grants verify req' "get:drinks-detail" = true ->
  full_dispatch_request verify GET_drinks req db
  = ({| body := envelope (JNum 404) (JStr "resource not found"); status := 404 |}, db) /\
  full_dispatch_request verify GET_drinks_detail req' db
  = ({| body := envelope (JNum 404) (JStr "resource not found"); status := 404 |}, db).
Proof.
  intros Hrows Hgr.
  destruct (requires_auth_granted verify "get:drinks-detail" drinks_detail req' Hgr)
    as (payload & _ & Hview).
  unfold full_dispatch_request. simpl view. rewrite Hview.
  unfold drinks, drinks_detail, Drink.query_all, mbind, Py_bind.
  rewrite Hrows, map_to_list_empty. by split.
Qed.

Lemma C4_empty_table_is_404_witness :
  status (fst (full_dispatch_request Sample.verify GET_drinks
                 Sample.anonymous Sample.empty)) = 404 /\
  status (fst (full_dispatch_request Sample.verify GET_drinks_detail
                 (Sample.as_barista JNull) Sample.empty)) = 404.
Proof.
  destruct (C4_empty_table_is_404 Sample.verify Sample.anonymous
              (Sample.as_barista JNull) Sample.empty eq_refl eq_refl) as [-> ->].
  by split.
Defined.

(** C8. Every failure of a view is answered by the envelope of its own kind.
    The four registered handlers answer the envelope with their code, that
    code as HTTP status and their fixed message, and flask picks each of them
    for the [abort] with its code; the handler of authorization errors, picked
    for every authorization error, answers HTTP status 401 with the envelope
    holding the error's own message and the status code the error carries
    (for the failure kinds of the guard: the message of the kind and 401).
    And on every route and request: a view that returns answers 200; a view
    that aborts does so with one of the four codes and is answered that
    code's envelope under that status; a view that raises an authorization
    error is answered its envelope under 401; a view that raises anything
    else is answered the 500 envelope. *)
Theorem C8_error_envelope (verify : string -> AuthError + json) :
  (forall e, not_found e
     = {| body := envelope (JNum 404) (JStr "resource not found"); status := 404 |}) /\
  (forall e, unprocessable e
     = {| body := envelope (JNum 422) (JStr "unprocessable"); status := 422 |}) /\
  (forall e, bad_request e
     = {| body := envelope (JNum 400) (JStr "bad request"); status := 400 |}) /\
  (forall e, server_error e
     = {| body := envelope (JNum 500) (JStr "server error"); status := 500 |}) /\
  (forall a, handle_auth_errors a
     = {| body := envelope (JNum (status_code a)) (error a); status := 401 |}) /\
  (forall k, handle_auth_errors (Auth.failure k)
     = {| body := envelope (JNum 401) (JStr (Auth.message k)); status := 401 |}) /\
  handle_exception (HTTPException 404)
  = {| body := envelope (JNum 404) (JStr "resource not found"); status := 404 |} /\
  handle_exception (HTTPException 422)
  = {| body := envelope (JNum 422) (JStr "unprocessable"); status := 422 |} /\
  handle_exception (HTTPException 400)
  = {| body := envelope (JNum 400) (JStr "bad request"); status := 400 |} /\
  handle_exception (HTTPException 500)
  = {| body := envelope (JNum 500) (JStr "server error"); status := 500 |} /\
  (forall a, handle_exception (AuthFailure a)
     = {| body := envelope (JNum (status_code a)) (error a); status := 401 |}) /\
  (forall r req db,
     (exists resp db',
        view verify r req db = (Ok resp, db') /\
        full_dispatch_request verify r req db = (resp, db') /\
        status resp = 200) \/
     (exists code message db',
        view verify r req db = (Raise (HTTPException code), db') /\
        (code, message) ∈ [(404, "resource not found"); (422, "unprocessable");
                           (400, "bad request"); (500, "server error")] /\
        full_dispatch_request verify r req db
        = ({| body := envelope (JNum code) (JStr message); status := code |}, db')) \/
     (exists a db',
        view verify r req db = (Raise (AuthFailure a), db') /\
        full_dispatch_request verify r req db
        = ({| body := envelope (JNum (status_code a)) (error a); status := 401 |},
           db')) \/
     (exists e db',
        view verify r req db = (Raise e, db') /\
        unexpected e = true /\
        full_dispatch_request verify r req db
        = ({| body := envelope (JNum 500) (JStr "server error"); status := 500 |},
           db'))).
Proof.
  repeat split; try reflexivity.
  intros r req db. unfold full_dispatch_request.
  pose proof (tame_view verify r req db) as Ht. unfold tame in Ht.
  destruct (view verify r req db) as [[resp|e] db']; simpl in Ht.
  { left. by exists resp, db'. }
  right.
  assert (Hmem : forall (c : Z) (m : string),
            In (c, m) [(404, "resource not found"); (422, "unprocessable");
                       (400, "bad request"); (500, "server error")] ->
            (c, m) ∈ [(404, "resource not found"); (422, "unprocessable");
                      (400, "bad request"); (500, "server error")])
    by (intros c m; apply list_elem_of_In).
  destruct e as [key| | | |code|a];
    try (right; right; eexists _, db'; by repeat split).
  - left. simpl in Ht. rewrite !elem_of_cons, elem_of_nil in Ht.
    destruct Ht as [->|[->|[->|[->|[]]]]];
      eexists _, _, db'; (split; [reflexivity|]);
      (split; [|reflexivity]); apply Hmem; simpl; tauto.
  - right. left. by exists a, db'.
Qed.

(** The envelopes as they are observed: a create without a token, a listing
    of the empty table, and a create the storage layer refuses. *)
Lemma envelopes_observed :
  fst (full_dispatch_request Sample.verify POST_drinks Sample.anonymous Sample.empty)
  = {| body := envelope (JNum 401) (JStr "MissingHeader"); status := 401 |} /\
  fst (full_dispatch_request Sample.verify GET_drinks Sample.anonymous Sample.empty)
  = {| body := envelope (JNum 404) (JStr "resource not found"); status := 404 |} /\
  fst (full_dispatch_request Sample.verify POST_drinks (Sample.as_manager Sample.water)
         {| rows := ∅; commit_fails := true |})
  = {| body := envelope (JNum 422) (JStr "unprocessable"); status := 422 |}.
Proof. repeat split. Qed.

(** ** Successful requests *)

Lemma status_handled (e : exn) : handled e -> status (handle_exception e) <> 200.
Proof.
  destruct e as [key| | | |code|a]; simpl; try done.
  rewrite !elem_of_cons, elem_of_nil. by intros [->|[->|[->|[->|[]]]]].
Qed.

Lemma ok_of_200 (out : result Response * Db) :
  tame ok200 out -> status (fst (respond out)) = 200 ->
  exists resp, out = (Ok resp, snd (respond out)) /\ fst (respond out) = resp.
Proof.
  destruct out as [[resp|e] db']; unfold tame; simpl; intros Ht Hs; [by exists resp|].
  by apply status_handled in Ht.
Qed.

Lemma requires_auth_inv {A} verify (p : string) (f : json -> Request -> Py A)
    (req : Request) (db db' : Db) (a : A) :
  Auth.requires_auth verify p f req db = (Ok a, db') ->
  exists payload, Auth.grants verify req p = true /\ f payload req db = (Ok a, db').
Proof.
  unfold Auth.requires_auth, Auth.grants, Auth.claims_of, Auth.verified,
    Auth.check_permissions.
  cbv [mbind Py_bind lift].
  destruct (Auth.get_token_auth_header (authorization req)) as [token|]; [|done].
  destruct (verify token) as [|payload]; [done|].
  destruct (Auth.has_permission p payload); [|done].
  intros H. by exists payload.
Qed.

(** C2. The body of a successful (200) response of a write route: for create
    the bare long form of the drink stored under an id that was free, for
    update the one-element array holding the long form of the drink stored
    under the requested id, for delete the requested id under the key
    delete. *)
Theorem C2_success_shapes
    (verify : string -> AuthError + json) (r : Route) (req : Request) (db : Db) :
  status (fst (full_dispatch_request verify r req db)) = 200 ->
  let resp := fst (full_dispatch_request verify r req db) in
  let db' := snd (full_dispatch_request verify r req db) in
  match r with
  | POST_drinks =>
      exists k row long,
        rows db !! k = None /\ rows db' !! k = Some row /\
        Drink.long (Drink.of_row k row) = Ok long /\
        body resp = Json (JObj [("success", JBool true); ("drinks", long)])
  | PATCH_drinks id =>
      exists row long,
        rows db' !! id = Some row /\
        Drink.long (Drink.of_row id row) = Ok long /\
        body resp = Json (JObj [("success", JBool true); ("drinks", JArr [long])])
  | DELETE_drinks id =>
      body resp = Json (JObj [("success", JBool true); ("delete", JNum id)])
  | _ => True
  end.
Proof.
  intros H200 resp db'. subst resp db'. unfold full_dispatch_request in *.
  destruct (ok_of_200 _ (tame_view verify r req db) H200) as (resp & Hout & ->).
  set (db' := snd (respond (view verify r req db))) in *. clearbody db'.
  destruct r as [| | |id|id]; try done; simpl view in Hout;
    apply requires_auth_inv in Hout as (payload & _ & Hout).
  - rewrite add_drink_run in Hout.
    destruct (py_getitem (get_json req) "title") as [t|]; [|done].
    destruct (py_getitem (get_json req) "recipe") as [rcp|]; [|done].
    destruct (commit_fails db); [done|]. unfold finish in Hout. simpl in Hout.
    destruct (Drink.long _) as [long|] eqn:El; simplify_eq/=.
    exists (Drink.next_id (rows db)), (t, json_dumps rcp), long.
    split; [apply next_id_fresh|]. split; [apply lookup_insert_eq|]. by split.
  - rewrite edit_drink_by_id_run in Hout.
    destruct (rows db !! id) as [row|]; [|done].
    destruct (new_title (get_json req) row) as [t|]; [|done].
    destruct (new_recipe (get_json req) row) as [rcp|]; [|done].
    destruct (commit_fails db); [done|]. unfold finish in Hout. simpl in Hout.
    destruct (Drink.long _) as [long|] eqn:El; simplify_eq/=.
    exists (t, rcp), long. split; [apply lookup_insert_eq|]. by split.
  - rewrite delete_drink_run in Hout.
    destruct (rows db !! id) as [row|]; [|done].
    destruct (commit_fails db); [done|]. by simplify_eq/=.
Qed.

Lemma C2_success_shapes_witness :
  body (fst (full_dispatch_request Sample.verify (DELETE_drinks 1)
               (Sample.as_manager JNull) Sample.one_drink))
  = Json (JObj [("success", JBool true); ("delete", JNum 1)]) /\
  (exists row long,
     rows (snd (full_dispatch_request Sample.verify (PATCH_drinks 1)
                  (Sample.as_manager (JObj [("title", JStr "Tap water")]))
                  Sample.one_drink)) !! 1 = Some row /\
     Drink.long (Drink.of_row 1 row) = Ok long /\
     body (fst (full_dispatch_request Sample.verify (PATCH_drinks 1)
                  (Sample.as_manager (JObj [("title", JStr "Tap water")]))
                  Sample.one_drink))
     = Json (JObj [("success", JBool true); ("drinks", JArr [long])])).
Proof.
  split.
  - apply (C2_success_shapes Sample.verify (DELETE_drinks 1)
             (Sample.as_manager JNull) Sample.one_drink). reflexivity.
  - apply (C2_success_shapes Sample.verify (PATCH_drinks 1)
             (Sample.as_manager (JObj [("title", JStr "Tap water")]))
             Sample.one_drink). reflexivity.
Defined.

(** ** Malformed bodies *)

Lemma add_drink_missing_field (payload : json) (req : Request) (db : Db)
    (d : list (string * json)) :
  get_json req = JObj d ->
  dict_get "title" d = None \/ dict_get "recipe" d = None ->
  respond (add_drink payload req db)
  = ({| body := envelope (JNum 500) (JStr "server error"); status := 500 |}, db).
Proof.
  intros Hb Hmiss. rewrite add_drink_run, Hb. simpl.
  destruct (dict_get "title" d) as [t|]; [|done].
  destruct Hmiss as [?|Hr]; [done|]. by rewrite Hr.
Qed.

(** C1, on the code: a create request whose JSON body has no title, one whose
    body has no recipe, a create request without a JSON body and an update
    request without a JSON body are all answered 500 "server error", not 422
    or 400: the [KeyError] or [TypeError] raised while the body is read is
    outside the [try] of the view and reaches the handler of 500. *)
Theorem C1_malformed_body_is_500 :
  let e500 := {| body := envelope (JNum 500) (JStr "server error"); status := 500 |} in
  full_dispatch_request Sample.verify POST_drinks
    (Sample.as_manager (JObj [("recipe", Sample.water_recipe)])) Sample.empty
  = (e500, Sample.empty) /\
  full_dispatch_request Sample.verify POST_drinks
    (Sample.as_manager (JObj [("title", JStr "Water")])) Sample.empty
  = (e500, Sample.empty) /\
  full_dispatch_request Sample.verify POST_drinks
    (Sample.as_manager JNull) Sample.empty
  = (e500, Sample.empty) /\
  full_dispatch_request Sample.verify (PATCH_drinks 1)
    (Sample.as_manager JNull) Sample.one_drink
  = (e500, Sample.one_drink).
Proof.
  cbv zeta. repeat apply conj.
  - apply (add_drink_missing_field Sample.manager _ Sample.empty
             [("recipe", Sample.water_recipe)]); [reflexivity|by left].
  - apply (add_drink_missing_field Sample.manager _ Sample.empty
             [("title", JStr "Water")]); [reflexivity|by right].
  - vm_compute. reflexivity.
  - vm_compute. reflexivity.
Qed.

(** ** Updates and deletes *)

Lemma new_title_given (d : list (string * json)) (row : json * string) (t : json) :
  dict_get "title" d = Some t -> new_title (JObj d) row = Ok t.
Proof. intros H. unfold new_title. simpl. by rewrite H. Qed.

Lemma new_title_absent (d : list (string * json)) (row : json * string) :
  dict_get "title" d = None -> new_title (JObj d) row = Ok (fst row).
Proof. intros H. unfold new_title. simpl. by rewrite H. Qed.

Lemma new_recipe_given (d : list (string * json)) (row : json * string) (r : json) :
  dict_get "recipe" d = Some r -> new_recipe (JObj d) row = Ok (json_dumps r).
Proof. intros H. unfold new_recipe. simpl. by rewrite H. Qed.

Lemma new_recipe_absent (d : list (string * json)) (row : json * string) :
  dict_get "recipe" d = None -> new_recipe (JObj d) row = Ok (snd row).
Proof. intros H. unfold new_recipe. simpl. by rewrite H. Qed.

Lemma snd_respond_finish (db : Db) (r : result Response) :
  snd (respond (finish db r)) = db.
Proof. by destruct r. Qed.

(** C5. An update whose body holds a title and no recipe, on an existing id
    and with the storage layer accepting the commit, stores the new title
    with the recipe that was there; a read of that id right after returns
    this drink, and every other row is as before. *)
Theorem C5_update_title_keeps_recipe
    (verify : string -> AuthError + json) (id : Z) (req : Request) (db : Db)
    (t0 : json) (r0 : string) (d : list (string * json)) (t : json) :
  Auth.grants verify req "patch:drinks" = true ->
  rows db !! id = Some (t0, r0) ->
  get_json req = JObj d ->
  dict_get "title" d = Some t ->
  dict_get "recipe" d = None ->
  commit_fails db = false ->
  let db' := snd (full_dispatch_request verify (PATCH_drinks id) req db) in
  rows db' = <[id := (t, r0)]> (rows db) /\
  Drink.one_or_none id db'
  = (Ok (Some {| Drink.id := Some id; Drink.title := t; Drink.recipe := r0 |}), db') /\
  (forall k, k <> id -> rows db' !! k = rows db !! k).
Proof.
  intros Hg Hrow Hb Ht Hr Hc db'. subst db'.
  destruct (granted_dispatch verify (PATCH_drinks id) _ req eq_refl Hg) as [pl ->].
  rewrite edit_drink_by_id_run, Hrow, Hb.
  rewrite (new_title_given d _ t Ht), (new_recipe_absent d _ Hr), Hc.
  rewrite snd_respond_finish. unfold Drink.one_or_none. simpl.
  split; [done|]. split.
  - by rewrite lookup_insert_eq.
  - intros k Hk. by apply lookup_insert_ne.
Qed.

Lemma C5_update_title_keeps_recipe_witness :
  rows (snd (full_dispatch_request Sample.verify (PATCH_drinks 1)
               (Sample.as_manager (JObj [("title", JStr "Tap water")]))
               Sample.one_drink))
  = <[1 := (JStr "Tap water", json_dumps Sample.water_recipe)]> (rows Sample.one_drink).
Proof.
  apply (C5_update_title_keeps_recipe Sample.verify 1
           (Sample.as_manager (JObj [("title", JStr "Tap water")]))
           Sample.one_drink (JStr "Water") (json_dumps Sample.water_recipe)
           [("title", JStr "Tap water")] (JStr "Tap water"));
    reflexivity.
Defined.

(** C6. Deleting an existing id, with the storage layer accepting the commit,
    answers 200; a read of that id right after finds nothing; and a second
    delete of the same id is answered 404 and leaves the table as it is. *)
Theorem C6_delete_then_gone
    (verify : string -> AuthError + json) (id : Z) (req req2 : Request) (db : Db)
    (row : json * string) :
  Auth.grants verify req "delete:drinks" = true ->
  Auth.grants verify req2 "delete:drinks" = true ->
  rows db !! id = Some row ->
  commit_fails db = false ->
  let resp1 := fst (full_dispatch_request verify (DELETE_drinks id) req db) in
  let db1 := snd (full_dispatch_request verify (DELETE_drinks id) req db) in
  status resp1 = 200 /\
  Drink.one_or_none id db1 = (Ok None, db1) /\
  full_dispatch_request verify (DELETE_drinks id) req2 db1
  = ({| body := envelope (JNum 404) (JStr "resource not found"); status := 404 |}, db1).
Proof.
  intros Hg Hg2 Hrow Hc resp1 db1. subst resp1 db1.
  destruct (granted_dispatch verify (DELETE_drinks id) _ req eq_refl Hg) as [pl ->].
  destruct (granted_dispatch verify (DELETE_drinks id) _ req2 eq_refl Hg2) as [pl2 ->].
  rewrite delete_drink_run, Hrow, Hc. simpl.
  split; [done|]. split.
  - unfold Drink.one_or_none. simpl. by rewrite lookup_delete_eq.
  - rewrite delete_drink_run. simpl. by rewrite lookup_delete_eq.
Qed.

Lemma C6_delete_then_gone_witness :
  let db1 := snd (full_dispatch_request Sample.verify (DELETE_drinks 1)
                    (Sample.as_manager JNull) Sample.one_drink) in
  Drink.one_or_none 1 db1 = (Ok None, db1) /\
  status (fst (full_dispatch_request Sample.verify (DELETE_drinks 1)
                 (Sample.as_manager JNull) db1)) = 404.
Proof.
  destruct (C6_delete_then_gone Sample.verify 1 (Sample.as_manager JNull)
              (Sample.as_manager JNull) Sample.one_drink
              (JStr "Water", json_dumps Sample.water_recipe)
              eq_refl eq_refl eq_refl eq_refl) as (_ & Hread & Hagain).
  split; [exact Hread|]. by rewrite Hagain.
Defined.

(** ** Stored recipes *)

Lemma long_ok_valid (d : Drink.t) (long : json) :
  Drink.long d = Ok long -> valid_recipe (Drink.recipe d) = true.
Proof.
  unfold Drink.long, valid_recipe. by destruct (json_loads (Drink.recipe d)).
Qed.

Lemma long_of_dumps (k : Z) (t r : json) :
  wf_json r = true ->
  Drink.long (Drink.of_row k (t, json_dumps r))
  = Ok (JObj [("id", JNum k); ("title", t); ("recipe", r)]).
Proof.
  intros Hwf. unfold Drink.long, Drink.of_row. simpl.
  by rewrite RoundTrip.json_loads_dumps.
Qed.

Lemma wf_dict_get (key : string) (d : list (string * json)) (v : json) :
  wf_json (JObj d) = true -> dict_get key d = Some v -> wf_json v = true.
Proof.
  change (wf_json (JObj d))
    with (bool_decide (NoDup (map fst d)) &&
          forallb (fun kv => match kv with (_, x) => wf_json x end) d).
  intros [_ Hall]%andb_true_iff. clear -Hall.
  induction d as [|[k x] d IH]; [done|].
  simpl in Hall. apply andb_true_iff in Hall as [Hx Hd].
  simpl. destruct (String.eqb key k); [by intros [= <-]|by apply IH].
Qed.

Lemma valid_dumps (r : json) : wf_json r = true -> valid_recipe (json_dumps r) = true.
Proof. intros Hwf. unfold valid_recipe. by rewrite RoundTrip.json_loads_dumps. Qed.

Lemma valid_table_updated (db : Db) (k : Z) (row : json * string) :
  valid_table db -> valid_recipe (snd row) = true -> valid_table (updated db k row).
Proof.
  intros Hdb Hrow k' row'. unfold updated. simpl.
  destruct (decide (k = k')) as [->|Hne].
  - rewrite lookup_insert_eq. by intros [= <-].
  - rewrite lookup_insert_ne by done. apply Hdb.
Qed.

Lemma valid_table_removed (db : Db) (k : Z) : valid_table db -> valid_table (removed db k).
Proof.
  intros Hdb k' row'. unfold removed. simpl.
  intros [_ H]%lookup_delete_Some. by apply (Hdb k').
Qed.

Lemma requires_auth_state {A} verify (p : string) (f : json -> Request -> Py A)
    (req : Request) (db : Db) :
  snd (Auth.requires_auth verify p f req db) = db \/
  exists payload, Auth.requires_auth verify p f req db = f payload req db.
Proof.
  unfold Auth.requires_auth, Auth.verified, Auth.check_permissions.
  cbv [mbind Py_bind lift].
  destruct (Auth.get_token_auth_header (authorization req)) as [token|]; [|by left].
  destruct (verify token) as [|payload]; [by left|].
  destruct (Auth.has_permission p payload); [right; by exists payload|by left].
Qed.

(** The views keep the invariant of the data model: whatever the request, as
    long as its body is a Python value, every recipe stored after it reads
    back as structured data if that was so before. *)
Lemma valid_table_preserved
    (verify : string -> AuthError + json) (r : Route) (req : Request) (db : Db) :
  wf_json (get_json req) = true ->
  valid_table db ->
  valid_table (snd (full_dispatch_request verify r req db)).
Proof.
  intros Hwf Hdb. unfold full_dispatch_request.
  assert (Hsnd : forall out, snd (respond out) = snd out)
    by (by intros [[|] ?]).
  rewrite Hsnd.
  assert (Hlist : forall {A} (f : Drink.t -> result A) (g : list A -> Response),
            snd ((ds ← Drink.query_all;
                  if (length ds =? 0)%nat then abort 404
                  else xs ← lift (mapM f ds); mret (g xs)) db) = db).
  { intros A f g. unfold Drink.query_all, mbind, Py_bind, abort, raise, lift.
    destruct (length _ =? 0)%nat; [done|]. by destruct (mapM f _). }
  destruct r as [| | |id|id]; simpl view.
  - unfold drinks. by rewrite Hlist.
  - destruct (requires_auth_state verify "get:drinks-detail" drinks_detail req db)
      as [->|[pl ->]]; [done|].
    unfold drinks_detail. by rewrite Hlist.
  - destruct (requires_auth_state verify "post:drinks" add_drink req db)
      as [->|[pl ->]]; [done|].
    rewrite add_drink_run.
    destruct (get_json req) as [| | | | |d] eqn:Eb; try done. simpl.
    destruct (dict_get "title" d) as [t|]; [|done].
    destruct (dict_get "recipe" d) as [rcp|] eqn:Er; [|done].
    destruct (commit_fails db); [done|]. unfold finish. simpl.
    apply valid_table_updated; [done|].
    apply valid_dumps. by apply (wf_dict_get "recipe" d).
  - destruct (requires_auth_state verify "patch:drinks" (edit_drink_by_id id) req db)
      as [->|[pl ->]]; [done|].
    rewrite edit_drink_by_id_run.
    destruct (rows db !! id) as [row|] eqn:Erow; [|done].
    destruct (new_title (get_json req) row) as [t|]; [|done].
    destruct (new_recipe (get_json req) row) as [rcp|] eqn:Er; [|done].
    destruct (commit_fails db); [done|]. unfold finish. simpl.
    apply valid_table_updated; [done|]. simpl.
    unfold new_recipe in Er.
    destruct (py_in "recipe" (get_json req)) as [[]|] eqn:Ein; simplify_eq/=.
    + destruct (get_json req) as [| | | | |d] eqn:Eb; try done. simpl in Er.
      destruct (dict_get "recipe" d) as [x|] eqn:Ex; simplify_eq/=.
      apply valid_dumps. by apply (wf_dict_get "recipe" d).
    + by apply (Hdb id).
  - destruct (requires_auth_state verify "delete:drinks" (delete_drink id) req db)
      as [->|[pl ->]]; [done|].
    rewrite delete_drink_run.
    destruct (rows db !! id) as [row|]; [|done].
    destruct (commit_fails db); [done|]. simpl. by apply valid_table_removed.
Qed.

(** C9. After a create or an update answered 200 the recipe stored for the
    drink reads back as structured data; when the request supplied a recipe,
    the stored text is its JSON serialization, and it reads back as the
    supplied structure itself (for a structure whose dicts have distinct
    keys, as every Python value has). *)
Theorem C9_stored_recipe_is_structured
    (verify : string -> AuthError + json) (r : Route) (req : Request) (db : Db) :
  status (fst (full_dispatch_request verify r req db)) = 200 ->
  let db' := snd (full_dispatch_request verify r req db) in
  match r with
  | POST_drinks =>
      exists k t supplied,
        rows db !! k = None /\
        py_getitem (get_json req) "recipe" = Ok supplied /\
        rows db' !! k = Some (t, json_dumps supplied) /\
        valid_recipe (json_dumps supplied) = true /\
        (wf_json supplied = true -> json_loads (json_dumps supplied) = Some supplied)
  | PATCH_drinks id =>
      exists t rcp,
        rows db' !! id = Some (t, rcp) /\
        valid_recipe rcp = true /\
        (forall supplied,
           py_getitem (get_json req) "recipe" = Ok supplied ->
           rcp = json_dumps supplied /\
           (wf_json supplied = true -> json_loads rcp = Some supplied))
  | _ => True
  end.
Proof.
  intros H200 db'. subst db'. unfold full_dispatch_request in *.
  destruct (ok_of_200 _ (tame_view verify r req db) H200) as (resp & Hout & _).
  set (db' := snd (respond (view verify r req db))) in *. clearbody db'.
  destruct r as [| | |id|id]; try done; simpl view in Hout;
    apply requires_auth_inv in Hout as (payload & _ & Hout).
  - rewrite add_drink_run in Hout.
    destruct (py_getitem (get_json req) "title") as [t|]; [|done].
    destruct (py_getitem (get_json req) "recipe") as [rcp|]; [|done].
    destruct (commit_fails db); [done|]. unfold finish in Hout. simpl in Hout.
    destruct (Drink.long _) as [long|] eqn:El; simplify_eq/=.
    exists (Drink.next_id (rows db)), t, rcp.
    split; [apply next_id_fresh|]. split; [done|].
    split; [apply lookup_insert_eq|].
    split; [by apply long_ok_valid in El|apply RoundTrip.json_loads_dumps].
  - rewrite edit_drink_by_id_run in Hout.
    destruct (rows db !! id) as [row|]; [|done].
    destruct (new_title (get_json req) row) as [t|]; [|done].
    destruct (new_recipe (get_json req) row) as [rcp|] eqn:Er; [|done].
    destruct (commit_fails db); [done|]. unfold finish in Hout. simpl in Hout.
    destruct (Drink.long _) as [long|] eqn:El; simplify_eq/=.
    exists t, rcp. split; [apply lookup_insert_eq|].
    split; [by apply long_ok_valid in El|].
    intros supplied Hs. unfold new_recipe in Er.
    destruct (get_json req) as [| | | | |d]; try done. simpl in Hs, Er.
    destruct (dict_get "recipe" d) as [x|]; [|done]. simplify_eq/=.
    split; [done|apply RoundTrip.json_loads_dumps].
Qed.

Lemma C9_stored_recipe_is_structured_witness :
  exists k t supplied,
    rows Sample.empty !! k = None /\
    py_getitem Sample.water "recipe" = Ok supplied /\
    rows Sample.one_drink !! k = Some (t, json_dumps supplied) /\
    valid_recipe (json_dumps supplied) = true /\
    (wf_json supplied = true -> json_loads (json_dumps supplied) = Some supplied).
Proof.
  apply (C9_stored_recipe_is_structured Sample.verify POST_drinks
           (Sample.as_manager Sample.water) Sample.empty).
  reflexivity.
Defined.

(** C10. On an existing id, with the storage layer accepting the commit: an
    update whose body holds a recipe stores the serialization of that recipe
    and nothing of the old one, so that the long form of the drink shows
    exactly the supplied recipe; an update whose body holds neither a title
    nor a recipe is answered 200 with the drink as it was, and the table is
    unchanged. *)
Theorem C10_update_replaces_recipe
    (verify : string -> AuthError + json) (id : Z) (req : Request) (db : Db)
    (t0 : json) (r0 : string) (d : list (string * json)) :
  Auth.grants verify req "patch:drinks" = true ->
  rows db !! id = Some (t0, r0) ->
  get_json req = JObj d ->
  commit_fails db = false ->
  let out := full_dispatch_request verify (PATCH_drinks id) req db in
  (forall r, dict_get "recipe" d = Some r ->
     exists t, rows (snd out) !! id = Some (t, json_dumps r) /\
       (wf_json r = true ->
        Drink.long (Drink.of_row id (t, json_dumps r))
        = Ok (JObj [("id", JNum id); ("title", t); ("recipe", r)]))) /\
  (dict_get "title" d = None -> dict_get "recipe" d = None ->
   forall v, json_loads r0 = Some v ->
     out = (jsonify [("success", JBool true);
                     ("drinks", JArr [JObj [("id", JNum id); ("title", t0);
                                            ("recipe", v)]])], db)).
Proof.
  intros Hg Hrow Hb Hc out. subst out.
  destruct (granted_dispatch verify (PATCH_drinks id) _ req eq_refl Hg) as [pl ->].
  rewrite edit_drink_by_id_run, Hrow, Hb. split.
  - intros r Hr. rewrite (new_recipe_given d _ r Hr).
    destruct (new_title (JObj d) (t0, r0)) as [t|e] eqn:Et.
    + rewrite Hc, snd_respond_finish. exists t. simpl.
      split; [apply lookup_insert_eq|apply long_of_dumps].
    + exfalso. unfold new_title in Et. simpl in Et.
      by destruct (dict_get "title" d).
  - intros Ht Hr v Hv.
    rewrite (new_title_absent d _ Ht), (new_recipe_absent d _ Hr), Hc. simpl.
    unfold Drink.long, Drink.of_row, finish, updated. simpl. rewrite Hv. simpl.
    f_equal. destruct db as [m c]. simpl in *. f_equal. by apply insert_id.
Qed.

Lemma C10_update_replaces_recipe_witness :
  (exists t,
     rows (snd (full_dispatch_request Sample.verify (PATCH_drinks 1)
                  (Sample.as_manager (JObj [("recipe", JArr [])]))
                  Sample.one_drink)) !! 1 = Some (t, json_dumps (JArr []))) /\
  status (fst (full_dispatch_request Sample.verify (PATCH_drinks 1)
                 (Sample.as_manager (JObj [])) Sample.one_drink)) = 200.
Proof.
  split.
  - destruct (C10_update_replaces_recipe Sample.verify 1
                (Sample.as_manager (JObj [("recipe", JArr [])])) Sample.one_drink
                (JStr "Water") (json_dumps Sample.water_recipe)
                [("recipe", JArr [])] eq_refl eq_refl eq_refl eq_refl)
      as [Hrep _].
    destruct (Hrep (JArr []) eq_refl) as (t & Ht & _). by exists t.
  - destruct (C10_update_replaces_recipe Sample.verify 1
                (Sample.as_manager (JObj [])) Sample.one_drink
                (JStr "Water") (json_dumps Sample.water_recipe)
                [] eq_refl eq_refl eq_refl eq_refl)
      as [_ Hsame].
    by rewrite (Hsame eq_refl eq_refl Sample.water_recipe eq_refl).
Defined.

(** ** The two projections *)











(** * Further properties of the views *)

(** ** The guard, for every table *)

Lemma snd_respond (out : result Response * Db) : snd (respond out) = snd out.
Proof. by destruct out as [[|] ?]. Qed.

Lemma requires_auth_refused {A} verify (p : string) (f : json -> Request -> Py A)
    (req : Request) :
  Auth.grants verify req p = false ->
  exists a, forall db,
    Auth.requires_auth verify p f req db = (Raise (AuthFailure a), db).
Proof.
  unfold Auth.grants, Auth.claims_of, Auth.requires_auth, Auth.verified,
    Auth.check_permissions, Auth.get_token_auth_header.
  cbv [mbind Py_bind lift].
  destruct (authorization req) as [h|]; [|by eexists].
  destruct (Auth.split " " h) as [|scheme [|token [|]]]; try by eexists.
  destruct (String.eqb scheme "Bearer"); [|by eexists].
  destruct (verify token) as [a|payload]; [by exists a|].
  intros ->. by eexists.
Qed.

Lemma refused_dispatch verify (r : Route) (p : string) (req : Request) :
  permission_of r = Some p -> Auth.grants verify req p = false ->
  exists a, forall db,
    full_dispatch_request verify r req db = (handle_auth_errors a, db).
Proof.
  intros Hr Hg. unfold full_dispatch_request.
  destruct r; simplify_eq/=.
  - destruct (requires_auth_refused verify _ drinks_detail req Hg) as [a H].
    exists a. intros db. by rewrite H.
  - destruct (requires_auth_refused verify _ add_drink req Hg) as [a H].
    exists a. intros db. by rewrite H.
  - destruct (requires_auth_refused verify _ (edit_drink_by_id id) req Hg) as [a H].
    exists a. intros db. by rewrite H.
  - destruct (requires_auth_refused verify _ (delete_drink id) req Hg) as [a H].
    exists a. intros db. by rewrite H.
Qed.

(** X4. On every guarded route a request that the guard does not let through
    (no header, a malformed header, a token the verifier rejects, or claims
    without the permission of the route) is answered with HTTP status 401 by
    the handler of authorization errors, and the table is left as it is. *)
Theorem X4_refused_is_401_unchanged
    (verify : string -> AuthError + json) (r : Route) (p : string)
    (req : Request) (db : Db) :
  permission_of r = Some p ->
  Auth.grants verify req p = false ->
  (exists a, fst (full_dispatch_request verify r req db) = handle_auth_errors a) /\
  status (fst (full_dispatch_request verify r req db)) = 401 /\
  snd (full_dispatch_request verify r req db) = db.
Proof.
  intros Hr Hg. destruct (refused_dispatch verify r p req Hr Hg) as [a H].
  rewrite H. split; [by exists a|by split].
Qed.

Lemma X4_refused_is_401_unchanged_witness :
  status (fst (full_dispatch_request Sample.verify POST_drinks
                 Sample.anonymous Sample.one_drink)) = 401 /\
  snd (full_dispatch_request Sample.verify POST_drinks
         Sample.anonymous Sample.one_drink) = Sample.one_drink.
Proof.
  apply (X4_refused_is_401_unchanged Sample.verify POST_drinks "post:drinks"
           Sample.anonymous Sample.one_drink); reflexivity.
Defined.

(** ** Reading *)

Lemma list_view_state {A} (f : Drink.t -> result A) (g : list A -> Response)
    (db : Db) :
  snd ((ds ← Drink.query_all;
        if (length ds =? 0)%nat then abort 404
        else xs ← lift (mapM f ds); mret (g xs)) db) = db.
Proof.
  unfold Drink.query_all, mbind, Py_bind, abort, raise, lift.
  destruct (length _ =? 0)%nat; [done|]. by destruct (mapM f _).
Qed.

(** X1. The two list routes only read: whatever the request and whatever
    they answer, the table after GET /drinks and after GET /drinks-detail is
    the table before. *)
Theorem X1_list_routes_read_only
    (verify : string -> AuthError + json) (req : Request) (db : Db) :
  snd (full_dispatch_request verify GET_drinks req db) = db /\
  snd (full_dispatch_request verify GET_drinks_detail req db) = db.
Proof.
  unfold full_dispatch_request. rewrite !snd_respond. simpl view. split.
  - unfold drinks. apply list_view_state.
  - destruct (requires_auth_state verify "get:drinks-detail" drinks_detail req db)
      as [->|[pl ->]]; [done|].
    unfold drinks_detail. apply list_view_state.
Qed.

Lemma mapM_long_ok (ds : list Drink.t) :
  Forall (fun d => valid_recipe (Drink.recipe d) = true) ds ->
  exists longs, mapM Drink.long ds = Ok longs /\
    Forall2 (fun d long => Drink.long d = Ok long) ds longs.
Proof.
  induction ds as [|d ds IH]; intros Hall; [by exists []|].
  apply Forall_cons_1 in Hall as [Hd Hds].
  destruct (IH Hds) as (longs & Hl & Hf).
  unfold valid_recipe in Hd.
  destruct (Drink.long d) as [long|] eqn:El.
  - exists (long :: longs). simpl. rewrite El, Hl. split; [done|by constructor].
  - unfold Drink.long in El. by destruct (json_loads (Drink.recipe d)).
Qed.

(** A text that is not JSON is rejected by [json_loads] too, and the long
    form of a drink storing it raises. *)
Lemma not_json_loads (s : string) : not_json s = true -> json_loads s = None.
Proof.
  unfold not_json, json_loads.
  destruct (skip_ws s) as [|c r]; [done|]. intros Hc.
  assert (Hp : parse_value (S (String.length s)) (String c r) = None); [|by rewrite Hp].
  revert Hc. generalize (String.length s). intros n.
  destruct c as [[] [] [] [] [] [] [] []]; intros Hc; try discriminate Hc; reflexivity.
Qed.

Lemma long_not_json (d : Drink.t) :
  not_json (Drink.recipe d) = true -> Drink.long d = Raise JSONDecodeError.
Proof. intros H. unfold Drink.long. by rewrite (not_json_loads _ H). Qed.

Lemma mapM_long_bad (ds : list Drink.t) (d : Drink.t) :
  d ∈ ds -> not_json (Drink.recipe d) = true ->
  mapM Drink.long ds = Raise JSONDecodeError.
Proof.
  intros Hin Hbad. induction ds as [|x ds IH]; [by apply elem_of_nil in Hin|].
  assert (Hraise : forall y e, Drink.long y = Raise e -> e = JSONDecodeError).
  { intros y e. unfold Drink.long.
    destruct (json_loads (Drink.recipe y)); by intros [= <-]. }
  apply elem_of_cons in Hin as [->|Hin]; simpl.
  - by rewrite (long_not_json x Hbad).
  - rewrite (IH Hin).
    destruct (Drink.long x) as [long|e] eqn:El; [done|].
    by rewrite (Hraise x e El).
Qed.

Lemma detail_listing
    (verify : string -> AuthError + json) (req : Request) (db : Db) :
  Auth.grants verify req "get:drinks-detail" = true ->
  rows db <> ∅ ->
  valid_table db ->
  exists longs,
    full_dispatch_request verify GET_drinks_detail req db
    = (jsonify [("success", JBool true); ("drinks", JArr longs)], db) /\
    Forall2 (fun kv long => Drink.long (Drink.of_row (fst kv) (snd kv)) = Ok long)
      (map_to_list (rows db)) longs.
Proof.
  intros Hg Hne Hvalid.
  destruct (granted_dispatch verify GET_drinks_detail _ req eq_refl Hg) as [pl ->].
  unfold drinks_detail, Drink.query_all, mbind at 1, Py_bind.
  set (ds := map (fun kv => Drink.of_row (fst kv) (snd kv)) (map_to_list (rows db))).
  assert (Hlen : (length ds =? 0)%nat = false).
  { apply Nat.eqb_neq. subst ds. rewrite length_map.
    destruct (map_to_list (rows db)) eqn:E; [|done].
    by apply map_to_list_empty_iff in E. }
  rewrite Hlen. unfold mbind, Py_bind, lift.
  destruct (mapM_long_ok ds) as (longs & Hl & Hf).
  { subst ds. apply Forall_forall. intros d Hd.
    apply list_elem_of_fmap in Hd as ([k row] & -> & Hin).
    apply elem_of_map_to_list in Hin. by apply (Hvalid k). }
  exists longs. rewrite Hl. split; [done|].
  subst ds. by apply Forall2_fmap_l in Hf.
Qed.

(** X14. GET /drinks-detail with a token granting the permission, on a table
    that is not empty: when every stored recipe reads back as structured
    data the answer is 200 and lists the long forms of the stored drinks, one
    entry per row, every stored drink being in the list and every entry of
    the list being a stored drink (in whatever order the storage returns
    them); when some stored recipe is not JSON at all the whole listing is
    answered 500 "server error". *)
Theorem X14_detail_lists_every_drink
    (verify : string -> AuthError + json) (req : Request) (db : Db) :
  Auth.grants verify req "get:drinks-detail" = true ->
  rows db <> ∅ ->
  (valid_table db ->
   exists longs,
     fst (full_dispatch_request verify GET_drinks_detail req db)
     = jsonify [("success", JBool true); ("drinks", JArr longs)] /\
     length longs = size (rows db) /\
     (forall k row, rows db !! k = Some row ->
        exists long, long ∈ longs /\ Drink.long (Drink.of_row k row) = Ok long) /\
     (forall long, long ∈ longs ->
        exists k row, rows db !! k = Some row /\
          Drink.long (Drink.of_row k row) = Ok long)) /\
  (forall k row, rows db !! k = Some row -> not_json (snd row) = true ->
     fst (full_dispatch_request verify GET_drinks_detail req db)
     = {| body := envelope (JNum 500) (JStr "server error"); status := 500 |}).
Proof.
  intros Hg Hne. split.
  - intros Hvalid.
    destruct (detail_listing verify req db Hg Hne Hvalid) as (longs & -> & Hf).
    exists longs. split; [done|]. split; [|split].
    + apply Forall2_length in Hf. by rewrite <- Hf, length_map_to_list.
    + intros k row Hrow. apply elem_of_map_to_list in Hrow.
      apply list_elem_of_lookup in Hrow as [i Hi].
      destruct (Forall2_lookup_l _ _ _ _ _ Hf Hi) as (long & Hj & Hlong).
      exists long. split; [|exact Hlong]. apply list_elem_of_lookup. by exists i.
    + intros long Hin. apply list_elem_of_lookup in Hin as [i Hi].
      destruct (Forall2_lookup_r _ _ _ _ _ Hf Hi) as ([k row] & Hj & Hlong).
      exists k, row. split; [|exact Hlong].
      apply elem_of_map_to_list. apply list_elem_of_lookup. by exists i.
  - intros k row Hrow Hbad.
    destruct (granted_dispatch verify GET_drinks_detail _ req eq_refl Hg) as [pl ->].
    unfold drinks_detail, Drink.query_all, mbind at 1, Py_bind.
    set (ds := map (fun kv => Drink.of_row (fst kv) (snd kv)) (map_to_list (rows db))).
    assert (Hlen : (length ds =? 0)%nat = false).
    { apply Nat.eqb_neq. subst ds. rewrite length_map.
      destruct (map_to_list (rows db)) eqn:E; [|done].
      by apply map_to_list_empty_iff in E. }
    rewrite Hlen. unfold mbind, Py_bind, lift.
    rewrite (mapM_long_bad ds (Drink.of_row k row)); [done| |done].
    subst ds. apply list_elem_of_fmap. exists (k, row).
    split; [done|]. by apply elem_of_map_to_list.
Qed.

Lemma X14_detail_lists_every_drink_witness :
  (exists longs,
     fst (full_dispatch_request Sample.verify GET_drinks_detail
            (Sample.as_barista JNull) Sample.one_drink)
     = jsonify [("success", JBool true); ("drinks", JArr longs)] /\
     length longs = size (rows Sample.one_drink)) /\
  fst (full_dispatch_request Sample.verify GET_drinks_detail
         (Sample.as_barista JNull)
         {| rows := {[ 3 := (JStr "Tea", "leaves") ]}; commit_fails := false |})
  = {| body := envelope (JNum 500) (JStr "server error"); status := 500 |}.
Proof.
  split.
  - assert (Hv : valid_table Sample.one_drink).
    { intros k row. destruct (decide (k = 1)) as [->|Hk].
      - intros [= <-]. reflexivity.
      - unfold Sample.one_drink. simpl. rewrite lookup_insert_ne by done.
        by rewrite lookup_empty. }
    assert (Hne : rows Sample.one_drink <> ∅).
    { intros H. by apply (f_equal (fun m => m !! 1)) in H. }
    destruct (X14_detail_lists_every_drink Sample.verify (Sample.as_barista JNull)
                Sample.one_drink eq_refl Hne) as [Hok _].
    destruct (Hok Hv) as (longs & Hresp & Hlen & _). by exists longs.
  - assert (Hne : rows {| rows := {[ 3 := (JStr "Tea", "leaves") ]};
                          commit_fails := false |} <> ∅).
    { intros H. by apply (f_equal (fun m => m !! 3)) in H. }
    destruct (X14_detail_lists_every_drink Sample.verify (Sample.as_barista JNull)
                {| rows := {[ 3 := (JStr "Tea", "leaves") ]}; commit_fails := false |}
                eq_refl Hne) as [_ Hbad].
    apply (Hbad 3 (JStr "Tea", "leaves")); reflexivity.
Defined.

(** ** Failures of the storage layer and unknown ids *)

Lemma new_title_object (d : list (string * json)) (row : json * string) :
  exists t, new_title (JObj d) row = Ok t.
Proof.
  unfold new_title. simpl. destruct (dict_get "title" d) as [t|]; simpl.
  - by exists t.
  - by exists (fst row).
Qed.

Lemma new_recipe_object (d : list (string * json)) (row : json * string) :
  exists rcp, new_recipe (JObj d) row = Ok rcp.
Proof.
  unfold new_recipe. simpl. destruct (dict_get "recipe" d) as [r|]; simpl.
  - by eexists.
  - by exists (snd row).
Qed.

(** X2. When the storage layer refuses the commit, a request that reaches the
    write is answered by the code its view aborts with, and the table is left
    as it is: 422 "unprocessable" for a create whose body holds a title and a
    recipe, 400 "bad request" for an update of an existing id with a JSON
    object body, 500 "server error" for a delete of an existing id. *)
Theorem X2_commit_failure_codes
    (verify : string -> AuthError + json) (r : Route) (p : string)
    (req : Request) (db : Db) :
  permission_of r = Some p ->
  Auth.grants verify req p = true ->
  commit_fails db = true ->
  match r with
  | POST_drinks =>
      exists t rc, py_getitem (get_json req) "title" = Ok t /\
                   py_getitem (get_json req) "recipe" = Ok rc
  | PATCH_drinks id => is_Some (rows db !! id) /\ exists d, get_json req = JObj d
  | DELETE_drinks id => is_Some (rows db !! id)
  | _ => False
  end ->
  full_dispatch_request verify r req db
  = (match r with
     | POST_drinks =>
         {| body := envelope (JNum 422) (JStr "unprocessable"); status := 422 |}
     | PATCH_drinks _ =>
         {| body := envelope (JNum 400) (JStr "bad request"); status := 400 |}
     | _ =>
         {| body := envelope (JNum 500) (JStr "server error"); status := 500 |}
     end, db).
Proof.
  intros Hr Hg Hc Hpre.
  destruct (granted_dispatch verify r p req Hr Hg) as [pl ->].
  destruct r as [| | |id|id]; try done.
  - destruct Hpre as (t & rc & Ht & Hrc).
    by rewrite add_drink_run, Ht, Hrc, Hc.
  - destruct Hpre as ([row Hrow] & d & Hb).
    rewrite edit_drink_by_id_run, Hrow, Hb.
    destruct (new_title_object d row) as [t ->].
    destruct (new_recipe_object d row) as [rcp ->].
    by rewrite Hc.
  - destruct Hpre as [row Hrow].
    by rewrite delete_drink_run, Hrow, Hc.
Qed.

Lemma X2_commit_failure_codes_witness :
  full_dispatch_request Sample.verify POST_drinks (Sample.as_manager Sample.water)
    {| rows := ∅; commit_fails := true |}
  = ({| body := envelope (JNum 422) (JStr "unprocessable"); status := 422 |},
     {| rows := ∅; commit_fails := true |}).
Proof.
  apply (X2_commit_failure_codes Sample.verify POST_drinks "post:drinks"
           (Sample.as_manager Sample.water) {| rows := ∅; commit_fails := true |});
    try reflexivity.
  exists (JStr "Water"), Sample.water_recipe. by split.
Defined.

(** X3. An update or a delete of an id that is not in the table is answered
    404 "resource not found" and leaves the table as it is, whatever the body
    of the request and whether or not the storage layer would accept a
    commit: the lookup comes before the body is read. *)
Theorem X3_unknown_id_is_404
    (verify : string -> AuthError + json) (r : Route) (p : string) (id : Z)
    (req : Request) (db : Db) :
  r = PATCH_drinks id \/ r = DELETE_drinks id ->
  permission_of r = Some p ->
  Auth.grants verify req p = true ->
  rows db !! id = None ->
  full_dispatch_request verify r req db
  = ({| body := envelope (JNum 404) (JStr "resource not found"); status := 404 |}, db).
Proof.
  intros Hroute Hr Hg Hrow.
  destruct (granted_dispatch verify r p req Hr Hg) as [pl ->].
  destruct Hroute as [-> | ->].
  - by rewrite edit_drink_by_id_run, Hrow.
  - by rewrite delete_drink_run, Hrow.
Qed.

Lemma X3_unknown_id_is_404_witness :
  full_dispatch_request Sample.verify (PATCH_drinks 7) (Sample.as_manager JNull)
    Sample.one_drink
  = ({| body := envelope (JNum 404) (JStr "resource not found"); status := 404 |},
     Sample.one_drink).
Proof.
  apply (X3_unknown_id_is_404 Sample.verify (PATCH_drinks 7) "patch:drinks" 7
           (Sample.as_manager JNull) Sample.one_drink);
    [by left|reflexivity..].
Defined.

(** ** Creating *)

Lemma create_granted_run
    (verify : string -> AuthError + json) (req : Request) (db : Db)
    (d : list (string * json)) (t r : json) :
  Auth.grants verify req "post:drinks" = true ->
  get_json req = JObj d ->
  dict_get "title" d = Some t ->
  dict_get "recipe" d = Some r ->
  wf_json r = true ->
  commit_fails db = false ->
  full_dispatch_request verify POST_drinks req db
  = (jsonify [("success", JBool true);
              ("drinks", JObj [("id", JNum (Drink.next_id (rows db)));
                               ("title", t); ("recipe", r)])],
     updated db (Drink.next_id (rows db)) (t, json_dumps r)).
Proof.
  intros Hg Hb Ht Hr Hwf Hc.
  destruct (granted_dispatch verify POST_drinks _ req eq_refl Hg) as [pl ->].
  rewrite add_drink_run, Hb. simpl. rewrite Ht, Hr, Hc.
  cbv zeta. by rewrite (long_of_dumps _ t r Hwf).
Qed.

(** X5. A create whose body is a JSON object with a title and a recipe, with
    the permission granted and the commit accepted, is answered 200 with the
    long form of the new drink: the id the table had free, the title as
    given, and the recipe read back from its stored serialization equal to
    the recipe as given; the table after is the table before with that one
    row added. *)
Theorem X5_create_echoes_the_drink
    (verify : string -> AuthError + json) (req : Request) (db : Db)
    (d : list (string * json)) (t r : json) :
  Auth.grants verify req "post:drinks" = true ->
  get_json req = JObj d ->
  dict_get "title" d = Some t ->
  dict_get "recipe" d = Some r ->
  wf_json r = true ->
  commit_fails db = false ->
  let k := Drink.next_id (rows db) in
  rows db !! k = None /\
  full_dispatch_request verify POST_drinks req db
  = (jsonify [("success", JBool true);
              ("drinks", JObj [("id", JNum k); ("title", t); ("recipe", r)])],
     updated db k (t, json_dumps r)).
Proof.
  intros Hg Hb Ht Hr Hwf Hc k. subst k. split; [apply next_id_fresh|].
  by apply (create_granted_run verify req db d).
Qed.

Lemma X5_create_echoes_the_drink_witness :
  full_dispatch_request Sample.verify POST_drinks (Sample.as_manager Sample.water)
    Sample.empty
  = (jsonify [("success", JBool true);
              ("drinks", JObj [("id", JNum 1); ("title", JStr "Water");
                               ("recipe", Sample.water_recipe)])],
     updated Sample.empty 1 (JStr "Water", json_dumps Sample.water_recipe)).
Proof.
  apply (X5_create_echoes_the_drink Sample.verify (Sample.as_manager Sample.water)
           Sample.empty
           [("title", JStr "Water"); ("recipe", Sample.water_recipe)]
           (JStr "Water") Sample.water_recipe);
    reflexivity.
Defined.

(** X6. Creating a drink and then deleting the id that the create answered
    gives back the table as it was before the create. *)
Theorem X6_create_then_delete_restores
    (verify : string -> AuthError + json) (req req2 : Request) (db : Db)
    (d : list (string * json)) (t r : json) :
  Auth.grants verify req "post:drinks" = true ->
  Auth.grants verify req2 "delete:drinks" = true ->
  get_json req = JObj d ->
  dict_get "title" d = Some t ->
  dict_get "recipe" d = Some r ->
  wf_json r = true ->
  commit_fails db = false ->
  let db1 := snd (full_dispatch_request verify POST_drinks req db) in
  full_dispatch_request verify (DELETE_drinks (Drink.next_id (rows db))) req2 db1
  = (jsonify [("success", JBool true);
              ("delete", JNum (Drink.next_id (rows db)))], db).
Proof.
  intros Hg Hg2 Hb Ht Hr Hwf Hc db1. subst db1.
  rewrite (create_granted_run verify req db d t r Hg Hb Ht Hr Hwf Hc).
  pose proof (next_id_fresh (rows db)) as Hfree.
  destruct (granted_dispatch verify (DELETE_drinks (Drink.next_id (rows db))) _
              req2 eq_refl Hg2) as [pl ->].
  rewrite delete_drink_run. simpl. rewrite lookup_insert_eq, Hc. simpl.
  f_equal. unfold removed. simpl.
  rewrite delete_insert_id by done. by destruct db.
Qed.

Lemma X6_create_then_delete_restores_witness :
  snd (full_dispatch_request Sample.verify (DELETE_drinks 1)
         (Sample.as_manager JNull) Sample.one_drink) = Sample.empty.
Proof.
  pose proof (X6_create_then_delete_restores Sample.verify
                (Sample.as_manager Sample.water) (Sample.as_manager JNull)
                Sample.empty
                [("title", JStr "Water"); ("recipe", Sample.water_recipe)]
                (JStr "Water") Sample.water_recipe
                eq_refl eq_refl eq_refl eq_refl eq_refl eq_refl eq_refl) as H.
  simpl in H. exact (f_equal snd H).
Defined.

(** ** Updating *)

Lemma new_title_again (b : json) (row : json * string) (t : json) (rcp : string) :
  new_title b row = Ok t -> new_title b (t, rcp) = Ok t.
Proof.
  unfold new_title, mbind, result_bind.
  by destruct (py_in "title" b) as [[]|].
Qed.

Lemma new_recipe_again (b : json) (row : json * string) (t : json) (rcp : string) :
  new_recipe b row = Ok rcp -> new_recipe b (t, rcp) = Ok rcp.
Proof.
  unfold new_recipe, mbind, result_bind.
  by destruct (py_in "recipe" b) as [[]|].
Qed.

Lemma dispatch_same_table verify (r : Route) (req : Request) (db : Db) :
  snd (full_dispatch_request verify r req db) = db ->
  full_dispatch_request verify r req (snd (full_dispatch_request verify r req db))
  = full_dispatch_request verify r req db.
Proof. by intros ->. Qed.

(** X7. An update is idempotent: sending the same PATCH request again, on
    the table the first one left, gives the same response and leaves the
    same table, whatever the request and the table are. *)
Theorem X7_update_idempotent
    (verify : string -> AuthError + json) (id : Z) (req : Request) (db : Db) :
  full_dispatch_request verify (PATCH_drinks id) req
    (snd (full_dispatch_request verify (PATCH_drinks id) req db))
  = full_dispatch_request verify (PATCH_drinks id) req db.
Proof.
  destruct (Auth.grants verify req "patch:drinks") eqn:Hg.
  2: { destruct (refused_dispatch verify (PATCH_drinks id) _ req eq_refl Hg) as [a H].
       by rewrite !H. }
  destruct (granted_dispatch verify (PATCH_drinks id) _ req eq_refl Hg) as [pl H].
  rewrite !H. rewrite (edit_drink_by_id_run id pl req db).
  destruct (rows db !! id) as [row|] eqn:Erow.
  2: { simpl. by rewrite edit_drink_by_id_run, Erow. }
  destruct (new_title (get_json req) row) as [t|e] eqn:Et.
  2: { simpl. by rewrite edit_drink_by_id_run, Erow, Et. }
  destruct (new_recipe (get_json req) row) as [rcp|e] eqn:Er.
  2: { simpl. by rewrite edit_drink_by_id_run, Erow, Et, Er. }
  destruct (commit_fails db) eqn:Hc.
  { simpl. by rewrite edit_drink_by_id_run, Erow, Et, Er, Hc. }
  rewrite snd_respond_finish, edit_drink_by_id_run. simpl rows.
  rewrite lookup_insert_eq.
  rewrite (new_title_again _ _ _ rcp Et), (new_recipe_again _ _ t _ Er).
  simpl commit_fails. rewrite Hc.
  unfold updated at 1. simpl. by rewrite insert_insert_eq.
Qed.

(** What a request can do to the table: nothing, or the one write of its
    route. *)
Lemma dispatch_table verify (r : Route) (req : Request) (db : Db) :
  snd (full_dispatch_request verify r req db) = db \/
  match r with
  | POST_drinks =>
      exists t rc,
        snd (full_dispatch_request verify r req db)
        = updated db (Drink.next_id (rows db)) (t, json_dumps rc)
  | PATCH_drinks id =>
      exists row t rcp,
        rows db !! id = Some row /\
        snd (full_dispatch_request verify r req db) = updated db id (t, rcp)
  | DELETE_drinks id =>
      is_Some (rows db !! id) /\
      snd (full_dispatch_request verify r req db) = removed db id
  | _ => False
  end.
Proof.
  unfold full_dispatch_request. rewrite snd_respond.
  destruct r as [| | |id|id]; simpl view.
  - left. unfold drinks. apply list_view_state.
  - left.
    destruct (requires_auth_state verify "get:drinks-detail" drinks_detail req db)
      as [->|[pl ->]]; [done|].
    unfold drinks_detail. apply list_view_state.
  - destruct (requires_auth_state verify "post:drinks" add_drink req db)
      as [->|[pl ->]]; [by left|].
    rewrite add_drink_run.
    destruct (py_getitem (get_json req) "title") as [t|]; [|by left].
    destruct (py_getitem (get_json req) "recipe") as [rc|]; [|by left].
    destruct (commit_fails db); [by left|]. right. by exists t, rc.
  - destruct (requires_auth_state verify "patch:drinks" (edit_drink_by_id id) req db)
      as [->|[pl ->]]; [by left|].
    rewrite edit_drink_by_id_run.
    destruct (rows db !! id) as [row|] eqn:Erow; [|by left].
    destruct (new_title (get_json req) row) as [t|]; [|by left].
    destruct (new_recipe (get_json req) row) as [rcp|]; [|by left].
    destruct (commit_fails db); [by left|]. right. by exists row, t, rcp.
  - destruct (requires_auth_state verify "delete:drinks" (delete_drink id) req db)
      as [->|[pl ->]]; [by left|].
    rewrite delete_drink_run.
    destruct (rows db !! id) as [row|] eqn:Erow; [|by left].
    destruct (commit_fails db); [by left|]. right. by split.
Qed.

(** X8. No request changes a drink it does not name: a row of the table is
    still there, with the same title and recipe, after any request other
    than an update or a delete of its own id. In particular a create never
    overwrites a stored drink. *)
Theorem X8_other_rows_untouched
    (verify : string -> AuthError + json) (r : Route) (req : Request) (db : Db)
    (k : Z) (row : json * string) :
  rows db !! k = Some row ->
  r <> PATCH_drinks k ->
  r <> DELETE_drinks k ->
  rows (snd (full_dispatch_request verify r req db)) !! k = Some row.
Proof.
  intros Hrow Hp Hd.
  destruct (dispatch_table verify r req db) as [->|H]; [done|].
  destruct r as [| | |id|id]; try done.
  - destruct H as (t & rc & ->). simpl.
    rewrite lookup_insert_ne; [done|].
    intros Hk. pose proof (next_id_fresh (rows db)) as Hf. congruence.
  - destruct H as (row' & t & rcp & _ & ->). simpl.
    rewrite lookup_insert_ne; [done|]. congruence.
  - destruct H as (_ & ->). simpl.
    rewrite lookup_delete_ne; [done|]. congruence.
Qed.

Lemma X8_other_rows_untouched_witness :
  rows (snd (full_dispatch_request Sample.verify POST_drinks
               (Sample.as_manager Sample.coffee) Sample.one_drink)) !! 1
  = Some (JStr "Water", json_dumps Sample.water_recipe).
Proof.
  apply (X8_other_rows_untouched Sample.verify POST_drinks
           (Sample.as_manager Sample.coffee) Sample.one_drink 1
           (JStr "Water", json_dumps Sample.water_recipe));
    [reflexivity|discriminate|discriminate].
Defined.

(** X15. An update never adds or removes a drink: whatever the request, the
    ids of the table after PATCH /drinks/id are the ids before. *)
Theorem X15_update_keeps_the_ids
    (verify : string -> AuthError + json) (id : Z) (req : Request) (db : Db)
    (k : Z) :
  is_Some (rows (snd (full_dispatch_request verify (PATCH_drinks id) req db)) !! k)
  <-> is_Some (rows db !! k).
Proof.
  destruct (dispatch_table verify (PATCH_drinks id) req db) as [->|H]; [done|].
  destruct H as (row & t & rcp & Hrow & ->). simpl.
  rewrite lookup_insert_is_Some. split.
  - intros [<-|[_ H]]; [by rewrite Hrow|done].
  - intros H. destruct (decide (id = k)); [by left|by right].
Qed.

(** X9. An update whose body is JSON but not an object, on an existing id
    whose stored recipe reads back, with the permission granted and the
    commit accepted: when the tests ['title' in body] and ['recipe' in body]
    are both false (a list without these two strings, a string without these
    two substrings) the update is answered 200 with the drink as it is;
    otherwise (a list or a string that mentions one of them, or null, a
    boolean or a number) it is answered 500 "server error". The table is
    unchanged either way. *)
Theorem X9_update_with_non_object_body
    (verify : string -> AuthError + json) (id : Z) (req : Request) (db : Db)
    (t0 : json) (r0 : string) (v : json) :
  Auth.grants verify req "patch:drinks" = true ->
  rows db !! id = Some (t0, r0) ->
  json_loads r0 = Some v ->
  commit_fails db = false ->
  (forall d, get_json req <> JObj d) ->
  full_dispatch_request verify (PATCH_drinks id) req db
  = match py_in "title" (get_json req), py_in "recipe" (get_json req) with
    | Ok false, Ok false =>
        (jsonify [("success", JBool true);
                  ("drinks", JArr [JObj [("id", JNum id); ("title", t0);
                                         ("recipe", v)]])], db)
    | _, _ =>
        ({| body := envelope (JNum 500) (JStr "server error"); status := 500 |}, db)
    end.
Proof.
  intros Hg Hrow Hv Hc Hb.
  destruct (granted_dispatch verify (PATCH_drinks id) _ req eq_refl Hg) as [pl ->].
  rewrite edit_drink_by_id_run, Hrow.
  assert (Hsame : finish (updated db id (t0, r0))
                    (long ← Drink.long (Drink.of_row id (t0, r0));
                     Ok (jsonify [("success", JBool true); ("drinks", JArr [long])]))
                  = (Ok (jsonify [("success", JBool true);
                                  ("drinks", JArr [JObj [("id", JNum id); ("title", t0);
                                                         ("recipe", v)]])]), db)).
  { unfold finish, Drink.long, Drink.of_row, updated. simpl. rewrite Hv. simpl.
    f_equal. destruct db as [m c]. simpl in *. f_equal. by apply insert_id. }
  unfold new_title, new_recipe.
  destruct (get_json req) as [|b|n|s|l|d]; try done; [| |by destruct (Hb d)]; simpl.
  - destruct (Text.contains "title" s); [done|]. simpl.
    destruct (Text.contains "recipe" s); [done|]. simpl.
    by rewrite Hc, Hsame.
  - destruct (existsb (is_str "title") l); [done|]. simpl.
    destruct (existsb (is_str "recipe") l); [done|]. simpl.
    by rewrite Hc, Hsame.
Qed.

Lemma X9_update_with_non_object_body_witness :
  status (fst (full_dispatch_request Sample.verify (PATCH_drinks 1)
                 (Sample.as_manager (JArr [])) Sample.one_drink)) = 200 /\
  status (fst (full_dispatch_request Sample.verify (PATCH_drinks 1)
                 (Sample.as_manager (JArr [JStr "title"])) Sample.one_drink)) = 500.
Proof.
  split.
  - rewrite (X9_update_with_non_object_body Sample.verify 1
               (Sample.as_manager (JArr [])) Sample.one_drink
               (JStr "Water") (json_dumps Sample.water_recipe) Sample.water_recipe
               eq_refl eq_refl eq_refl eq_refl); [reflexivity|discriminate].
  - rewrite (X9_update_with_non_object_body Sample.verify 1
               (Sample.as_manager (JArr [JStr "title"])) Sample.one_drink
               (JStr "Water") (json_dumps Sample.water_recipe) Sample.water_recipe
               eq_refl eq_refl eq_refl eq_refl); [reflexivity|discriminate].
Defined.

(** X12. An update can answer 500 after it has written: on an existing id
    whose stored recipe is not JSON at all (it is empty, or its first
    character cannot begin a JSON value), an update that only gives a title
    (permission granted, commit accepted) stores the new title and is then
    answered 500 "server error", because the long form of the drink is
    computed after the commit. *)
Theorem X12_update_writes_before_it_fails
    (verify : string -> AuthError + json) (id : Z) (req : Request) (db : Db)
    (t0 : json) (r0 : string) (d : list (string * json)) (t : json) :
  Auth.grants verify req "patch:drinks" = true ->
  rows db !! id = Some (t0, r0) ->
  not_json r0 = true ->
  get_json req = JObj d ->
  dict_get "title" d = Some t ->
  dict_get "recipe" d = None ->
  commit_fails db = false ->
  full_dispatch_request verify (PATCH_drinks id) req db
  = ({| body := envelope (JNum 500) (JStr "server error"); status := 500 |},
     updated db id (t, r0)).
Proof.
  intros Hg Hrow Hbad Hb Ht Hr Hc.
  destruct (granted_dispatch verify (PATCH_drinks id) _ req eq_refl Hg) as [pl ->].
  rewrite edit_drink_by_id_run, Hrow, Hb.
  rewrite (new_title_given d _ t Ht), (new_recipe_absent d _ Hr), Hc.
  unfold finish. by rewrite long_not_json.
Qed.

Lemma X12_update_writes_before_it_fails_witness :
  full_dispatch_request Sample.verify (PATCH_drinks 3)
    (Sample.as_manager (JObj [("title", JStr "Tea")]))
    {| rows := {[ 3 := (JStr "Te", "leaves") ]}; commit_fails := false |}
  = ({| body := envelope (JNum 500) (JStr "server error"); status := 500 |},
     updated {| rows := {[ 3 := (JStr "Te", "leaves") ]}; commit_fails := false |}
       3 (JStr "Tea", "leaves")).
Proof.
  apply (X12_update_writes_before_it_fails Sample.verify 3
           (Sample.as_manager (JObj [("title", JStr "Tea")]))
           {| rows := {[ 3 := (JStr "Te", "leaves") ]}; commit_fails := false |}
           (JStr "Te") "leaves" [("title", JStr "Tea")] (JStr "Tea"));
    reflexivity.
Defined.

(** ** Creating, continued *)

(** X10. A create whose body is not a JSON object holding both a title and a
    recipe (an object without one of the two, a list, a string, a number, a
    boolean or no JSON body) is answered 500 "server error" and leaves the
    table as it is, the permission being granted. *)
Theorem X10_create_without_fields_is_500
    (verify : string -> AuthError + json) (req : Request) (db : Db) :
  Auth.grants verify req "post:drinks" = true ->
  (forall d, get_json req = JObj d ->
     dict_get "title" d = None \/ dict_get "recipe" d = None) ->
  full_dispatch_request verify POST_drinks req db
  = ({| body := envelope (JNum 500) (JStr "server error"); status := 500 |}, db).
Proof.
  intros Hg Hb.
  destruct (granted_dispatch verify POST_drinks _ req eq_refl Hg) as [pl ->].
  destruct (get_json req) as [|b|n|s|l|d] eqn:Eb;
    try (rewrite add_drink_run, Eb; reflexivity).
  by apply (add_drink_missing_field pl req db d); [|apply Hb].
Qed.

Lemma X10_create_without_fields_is_500_witness :
  full_dispatch_request Sample.verify POST_drinks
    (Sample.as_manager (JArr [JStr "title"; JStr "recipe"])) Sample.one_drink
  = ({| body := envelope (JNum 500) (JStr "server error"); status := 500 |},
     Sample.one_drink).
Proof.
  apply (X10_create_without_fields_is_500 Sample.verify
           (Sample.as_manager (JArr [JStr "title"; JStr "recipe"]))
           Sample.one_drink); [reflexivity|discriminate].
Defined.

(** ** The table across requests *)

Lemma long_valid (d : Drink.t) :
  valid_recipe (Drink.recipe d) = true -> exists long, Drink.long d = Ok long.
Proof.
  unfold valid_recipe, Drink.long.
  destruct (json_loads (Drink.recipe d)); [by eexists|done].
Qed.

Lemma new_recipe_valid (b : json) (row : json * string) (rcp : string) :
  wf_json b = true -> valid_recipe (snd row) = true ->
  new_recipe b row = Ok rcp -> valid_recipe rcp = true.
Proof.
  intros Hwf Hrow. unfold new_recipe.
  destruct (py_in "recipe" b) as [[]|] eqn:Ein; simpl; [|by intros [= <-]|done].
  destruct b as [| | | | |d]; try done. simpl.
  destruct (dict_get "recipe" d) as [x|] eqn:Ex; [|done]. simpl.
  intros [= <-]. apply valid_dumps. by apply (wf_dict_get "recipe" d).
Qed.

(** X11. Under the invariant that every stored recipe reads back as
    structured data, and for a request whose body is a Python value, a
    response other than 200 means that nothing was written: the table after
    it is the table before, on every route. *)
Theorem X11_error_means_no_write
    (verify : string -> AuthError + json) (r : Route) (req : Request) (db : Db) :
  wf_json (get_json req) = true ->
  valid_table db ->
  status (fst (full_dispatch_request verify r req db)) <> 200 ->
  snd (full_dispatch_request verify r req db) = db.
Proof.
  intros Hwf Hdb. unfold full_dispatch_request.
  destruct r as [| | |id|id]; simpl view.
  - intros _. rewrite snd_respond. unfold drinks. apply list_view_state.
  - intros _. rewrite snd_respond.
    destruct (requires_auth_state verify "get:drinks-detail" drinks_detail req db)
      as [->|[pl ->]]; [done|].
    unfold drinks_detail. apply list_view_state.
  - destruct (requires_auth_state verify "post:drinks" add_drink req db)
      as [H|[pl ->]]; [intros _; by rewrite snd_respond|].
    rewrite add_drink_run.
    destruct (get_json req) as [| | | | |d] eqn:Eb; try done. simpl.
    destruct (dict_get "title" d) as [t|]; [|done].
    destruct (dict_get "recipe" d) as [rc|] eqn:Er; [|done].
    destruct (commit_fails db); [done|]. cbv zeta.
    rewrite long_of_dumps by (by apply (wf_dict_get "recipe" d)). by simpl.
  - destruct (requires_auth_state verify "patch:drinks" (edit_drink_by_id id) req db)
      as [H|[pl ->]]; [intros _; by rewrite snd_respond|].
    rewrite edit_drink_by_id_run.
    destruct (rows db !! id) as [row|] eqn:Erow; [|done].
    destruct (new_title (get_json req) row) as [t|]; [|done].
    destruct (new_recipe (get_json req) row) as [rcp|] eqn:Er; [|done].
    destruct (commit_fails db); [done|].
    destruct (long_valid (Drink.of_row id (t, rcp))) as [long ->]; [|by simpl].
    simpl. eapply new_recipe_valid; [exact Hwf| |exact Er]. by apply (Hdb id).
  - destruct (requires_auth_state verify "delete:drinks" (delete_drink id) req db)
      as [H|[pl ->]]; [intros _; by rewrite snd_respond|].
    rewrite delete_drink_run.
    destruct (rows db !! id) as [row|]; [|done].
    by destruct (commit_fails db).
Qed.

Lemma X11_error_means_no_write_witness :
  snd (full_dispatch_request Sample.verify (PATCH_drinks 1)
         (Sample.as_manager (JObj [("title", JStr "Tea"); ("recipe", JNull)]))
         {| rows := rows Sample.one_drink; commit_fails := true |})
  = {| rows := rows Sample.one_drink; commit_fails := true |}.
Proof.
  apply (X11_error_means_no_write Sample.verify (PATCH_drinks 1)
           (Sample.as_manager (JObj [("title", JStr "Tea"); ("recipe", JNull)]))
           {| rows := rows Sample.one_drink; commit_fails := true |}).
  - reflexivity.
  - intros k row. simpl. destruct (decide (k = 1)) as [->|Hk].
    + intros [= <-]. reflexivity.
    + rewrite lookup_insert_ne by done. by rewrite lookup_empty.
  - discriminate.
Defined.

(** The table after a sequence of requests, served one after the other. *)
Fixpoint serve (verify : string -> AuthError + json)
    (reqs : list (Route * Request)) (db : Db) : Db :=
  match reqs with
  | [] => db
  | (r, req) :: rest => serve verify rest (snd (full_dispatch_request verify r req db))
  end.

(** X13. The views keep the invariant of the stored recipes: starting from a
    table in which every stored recipe reads back as structured data (the
    empty table, for one), after any sequence of requests on any routes
    whose bodies are Python values every stored recipe still reads back as
    structured data, whatever the responses were. *)
Theorem X13_recipes_stay_structured
    (verify : string -> AuthError + json) (reqs : list (Route * Request)) (db : Db) :
  Forall (fun x => wf_json (get_json (snd x)) = true) reqs ->
  valid_table db ->
  valid_table (serve verify reqs db).
Proof.
  revert db. induction reqs as [|[r req] reqs IH]; intros db Hall Hdb; [done|].
  apply Forall_cons_1 in Hall as [Hreq Hrest]. simpl.
  apply IH; [done|]. by apply valid_table_preserved.
Qed.

Lemma X13_recipes_stay_structured_witness :
  valid_table
    (serve Sample.verify
       [(POST_drinks, Sample.as_manager Sample.coffee);
        (PATCH_drinks 1, Sample.as_manager (JObj [("recipe", JArr [JNum 3])]))]
       Sample.empty).
Proof.
  apply (X13_recipes_stay_structured Sample.verify
           [(POST_drinks, Sample.as_manager Sample.coffee);
            (PATCH_drinks 1, Sample.as_manager (JObj [("recipe", JArr [JNum 3])]))]
           Sample.empty).
  - repeat constructor.
  - intros k row. simpl. by rewrite lookup_empty.
Defined.

(** ** Round trips through the table *)

(** X16. A successful update answers with the drink as it now is: for a body
    that is a JSON object (a Python value), on an existing id whose stored
    recipe reads back, with the permission granted and the commit accepted,
    the answer is 200 with the one-element list holding the id, the title of
    the body if it has one and the stored title otherwise, and the recipe of
    the body if it has one and the stored recipe otherwise; the row of the
    id is rewritten accordingly. *)
Theorem X16_update_echoes_the_drink
    (verify : string -> AuthError + json) (id : Z) (req : Request) (db : Db)
    (t0 : json) (r0 : string) (v0 : json) (d : list (string * json)) :
  Auth.grants verify req "patch:drinks" = true ->
  rows db !! id = Some (t0, r0) ->
  json_loads r0 = Some v0 ->
  get_json req = JObj d ->
  wf_json (JObj d) = true ->
  commit_fails db = false ->
  let t := default t0 (dict_get "title" d) in
  let v := default v0 (dict_get "recipe" d) in
  let rcp := from_option json_dumps r0 (dict_get "recipe" d) in
  full_dispatch_request verify (PATCH_drinks id) req db
  = (jsonify [("success", JBool true);
              ("drinks", JArr [JObj [("id", JNum id); ("title", t); ("recipe", v)]])],
     updated db id (t, rcp)).
Proof.
  intros Hg Hrow Hv Hb Hwf Hc t v rcp. subst t v rcp.
  destruct (granted_dispatch verify (PATCH_drinks id) _ req eq_refl Hg) as [pl ->].
  rewrite edit_drink_by_id_run, Hrow, Hb.
  assert (Ht : new_title (JObj d) (t0, r0) = Ok (default t0 (dict_get "title" d))).
  { destruct (dict_get "title" d) as [t|] eqn:E;
      [by apply new_title_given|by rewrite new_title_absent]. }
  assert (Hr : new_recipe (JObj d) (t0, r0)
               = Ok (from_option json_dumps r0 (dict_get "recipe" d))).
  { destruct (dict_get "recipe" d) as [r|] eqn:E;
      [by apply new_recipe_given|by rewrite new_recipe_absent]. }
  rewrite Ht, Hr, Hc. unfold finish. simpl. f_equal.
  destruct (dict_get "recipe" d) as [r|] eqn:E; simpl.
  - rewrite long_of_dumps; [done|]. by apply (wf_dict_get "recipe" d).
  - unfold Drink.long, Drink.of_row. simpl. by rewrite Hv.
Qed.

Lemma X16_update_echoes_the_drink_witness :
  fst (full_dispatch_request Sample.verify (PATCH_drinks 1)
         (Sample.as_manager (JObj [("recipe", Sample.coffee_recipe)]))
         Sample.one_drink)
  = jsonify [("success", JBool true);
             ("drinks", JArr [JObj [("id", JNum 1); ("title", JStr "Water");
                                    ("recipe", Sample.coffee_recipe)]])].
Proof.
  rewrite (X16_update_echoes_the_drink Sample.verify 1
             (Sample.as_manager (JObj [("recipe", Sample.coffee_recipe)]))
             Sample.one_drink (JStr "Water") (json_dumps Sample.water_recipe)
             Sample.water_recipe [("recipe", Sample.coffee_recipe)]
             eq_refl eq_refl eq_refl eq_refl eq_refl eq_refl).
  reflexivity.
Defined.

Lemma Forall2_elem_l {A B} (P : A -> B -> Prop) (l : list A) (k : list B) (x : A) :
  Forall2 P l k -> x ∈ l -> exists y, y ∈ k /\ P x y.
Proof.
  induction 1 as [|a b l k Hab Hlk IH]; intros Hin; [by apply elem_of_nil in Hin|].
  apply elem_of_cons in Hin as [->|Hin].
  - exists b. split; [apply list_elem_of_here|done].
  - destruct (IH Hin) as (y & Hy & HP). exists y.
    split; [by apply list_elem_of_further|done].
Qed.

(** X17. A drink that was created is listed: after a successful create (JSON
    object body with a title and a recipe, permission granted, commit
    accepted) on a table whose stored recipes read back, GET /drinks-detail
    is answered 200 and its list holds the long form of the new drink, with
    the id, the title and the recipe that the create answered. *)
Theorem X17_created_drink_is_listed
    (verify : string -> AuthError + json) (req req2 : Request) (db : Db)
    (d : list (string * json)) (t r : json) :
  Auth.grants verify req "post:drinks" = true ->
  Auth.grants verify req2 "get:drinks-detail" = true ->
  get_json req = JObj d ->
  dict_get "title" d = Some t ->
  dict_get "recipe" d = Some r ->
  wf_json r = true ->
  commit_fails db = false ->
  valid_table db ->
  let db1 := snd (full_dispatch_request verify POST_drinks req db) in
  exists longs,
    full_dispatch_request verify GET_drinks_detail req2 db1
    = (jsonify [("success", JBool true); ("drinks", JArr longs)], db1) /\
    JObj [("id", JNum (Drink.next_id (rows db))); ("title", t); ("recipe", r)] ∈ longs.
Proof.
  intros Hg Hg2 Hb Ht Hr Hwf Hc Hdb db1. subst db1.
  rewrite (create_granted_run verify req db d t r Hg Hb Ht Hr Hwf Hc). simpl snd.
  set (k := Drink.next_id (rows db)).
  assert (Hrow : rows (updated db k (t, json_dumps r)) !! k = Some (t, json_dumps r))
    by apply lookup_insert_eq.
  destruct (detail_listing verify req2 (updated db k (t, json_dumps r)) Hg2)
    as (longs & Hresp & Hf).
  - intros Hempty. rewrite Hempty in Hrow. by rewrite lookup_empty in Hrow.
  - apply valid_table_updated; [done|]. by apply valid_dumps.
  - exists longs. split; [done|].
    apply elem_of_map_to_list in Hrow.
    destruct (Forall2_elem_l _ _ _ _ Hf Hrow) as (long & Hin & Hlong).
    simpl in Hlong. rewrite (long_of_dumps k t r Hwf) in Hlong. by simplify_eq.
Qed.

Lemma X17_created_drink_is_listed_witness :
  exists longs,
    full_dispatch_request Sample.verify GET_drinks_detail (Sample.as_barista JNull)
      Sample.one_drink
    = (jsonify [("success", JBool true); ("drinks", JArr longs)], Sample.one_drink) /\
    JObj [("id", JNum 1); ("title", JStr "Water"); ("recipe", Sample.water_recipe)]
    ∈ longs.
Proof.
  apply (X17_created_drink_is_listed Sample.verify (Sample.as_manager Sample.water)
           (Sample.as_barista JNull) Sample.empty
           [("title", JStr "Water"); ("recipe", Sample.water_recipe)]
           (JStr "Water") Sample.water_recipe);
    try reflexivity.
  intros k row. simpl. by rewrite lookup_empty.
Defined.
